(** * Hunter MCP gateway: a shallow embedding of [hunter_api.py], [main.py]
      and [simple_mcp.py], and the properties of their request path.

    The Python values that flow through the gateway are the values of a
    parsed JSON document.  The outbound HTTP call and the inbound request
    body are the only inputs; logging and the outbound call are the only
    effects. *)

From Stdlib Require Import String Ascii List ZArith NArith Bool Lia.
From Stdlib Require Import DecimalString.
Import ListNotations.
Local Open Scope string_scope.
Local Open Scope Z_scope.
Set Warnings "-register-all".

(* ================================================================== *)
(** ** Python values *)
(* ================================================================== *)

Module Py.

(** A Python [str] is a sequence of code points.  The model holds it as
    its UTF-8 bytes, a surrogate code point written as the three bytes the
    encoding gives it under [surrogatepass]; ASCII text is itself.  Equality
    and concatenation of [str]s are those of the bytes. *)

(** What [json.loads] can produce.  A finite float is carried as the text
    of its [repr], which is also what [json.dumps] prints for it. *)
Inductive value : Type :=
| PNone
| PBool (b : bool)
| PInt (n : Z)
| PFloat (text : string)
| PStr (s : string)
| PList (items : list value)
| PDict (entries : list (string * value)).

(** A [dict] with [str] keys, in insertion order. *)
Definition dict := list (string * value).

Definition empty_dict : dict := [].

(** [d.get(k)] as an option, and [k in d]. *)
Fixpoint lookup (k : string) (d : dict) : option value :=
  match d with
  | [] => None
  | (k', v) :: rest => if String.eqb k k' then Some v else lookup k rest
  end.


(** [d[k] = v]: an existing key keeps its place, a new key goes last. *)
Fixpoint setitem (k : string) (v : value) (d : dict) : dict :=
  match d with
  | [] => [(k, v)]
  | (k', v') :: rest =>
      if String.eqb k k' then (k', v) :: rest else (k', v') :: setitem k v rest
  end.

(** [d.get(k, default)]. *)
Definition get_default (k : string) (default : value) (d : dict) : value :=
  match lookup k d with Some v => v | None => default end.

(** Truth value testing, as in [if first_name:]. *)
Definition truthy (v : value) : bool :=
  match v with
  | PNone => false
  | PBool b => b
  | PInt n => negb (n =? 0)
  | PFloat t => negb (String.eqb t "0.0" || String.eqb t "-0.0")
  | PStr s => negb (String.eqb s EmptyString)
  | PList l => match l with [] => false | _ => true end
  | PDict d => match d with [] => false | _ => true end
  end.

(** *** Code points *)

Definition dq : ascii := "034"%char.
Definition sq : ascii := "039"%char.
Definition bslash : ascii := "092"%char.
Definition lf : ascii := "010"%char.

Definition str1 (c : ascii) : string := String c EmptyString.

(** The payload of a continuation byte. *)
Definition continuation (c : ascii) : option N :=
  let n := N_of_ascii c in
  if ((128 <=? n) && (n <? 192))%N then Some (n - 128)%N else None.

(** The code points of a [str], each with the bytes that hold it.  A byte
    that starts no well-formed sequence stands for itself; no [str] has
    one. *)
Fixpoint chars (s : string) : list (N * string) :=
  match s with
  | EmptyString => []
  | String c0 r0 =>
      let n0 := N_of_ascii c0 in
      let alone := (n0, str1 c0) :: chars r0 in
      if (n0 <? 192)%N then alone
      else
        match r0 with
        | EmptyString => alone
        | String c1 r1 =>
            match continuation c1 with
            | None => alone
            | Some n1 =>
                if (n0 <? 224)%N
                then (((n0 - 192) * 64 + n1)%N, String c0 (str1 c1)) :: chars r1
                else
                  match r1 with
                  | EmptyString => alone
                  | String c2 r2 =>
                      match continuation c2 with
                      | None => alone
                      | Some n2 =>
                          if (n0 <? 240)%N
                          then ((((n0 - 224) * 64 + n1) * 64 + n2)%N,
                                String c0 (String c1 (str1 c2))) :: chars r2
                          else
                            match r2 with
                            | EmptyString => alone
                            | String c3 r3 =>
                                match continuation c3 with
                                | None => alone
                                | Some n3 =>
                                    ((((((n0 - 240) * 64 + n1) * 64 + n2) * 64 + n3)%N,
                                      String c0 (String c1 (String c2 (str1 c3))))
                                       :: chars r3)
                                end
                            end
                      end
                  end
            end
        end
  end.

Definition codes (s : string) : list N := map fst (chars s).

(** U+D800..U+DFFF. *)
Definition is_surrogate (cp : N) : bool := ((55296 <=? cp) && (cp <=? 57343))%N.

Definition has_surrogate (s : string) : bool := existsb is_surrogate (codes s).

Fixpoint flatten (parts : list string) : string :=
  match parts with
  | [] => EmptyString
  | p :: rest => p ++ flatten rest
  end.

Definition hex_digit (n : N) : ascii :=
  match n with
  | 0%N => "0" | 1%N => "1" | 2%N => "2" | 3%N => "3" | 4%N => "4"
  | 5%N => "5" | 6%N => "6" | 7%N => "7" | 8%N => "8" | 9%N => "9"
  | 10%N => "a" | 11%N => "b" | 12%N => "c" | 13%N => "d" | 14%N => "e"
  | _ => "f"
  end%char.

(** [n] in lower-case hex, [width] digits wide. *)
Fixpoint hex (width : nat) (n : N) : string :=
  match width with
  | O => EmptyString
  | S w => hex w (N.div n 16) ++ str1 (hex_digit (N.modulo n 16))
  end.

(** [str(n)] of an [int]. *)
Definition int_text (n : Z) : string := NilZero.string_of_int (Z.to_int n).

Fixpoint mem_char (c : ascii) (s : string) : bool :=
  match s with
  | EmptyString => false
  | String c' rest => Ascii.eqb c c' || mem_char c rest
  end.

Fixpoint join (sep : string) (parts : list string) : string :=
  match parts with
  | [] => EmptyString
  | [p] => p
  | p :: rest => p ++ sep ++ join sep rest
  end.

(** *** [json.dumps] *)

(** The escapes both encoders share, and [None] for any other code
    point. *)
Definition json_named (cp : N) (raw : string) : option string :=
  if ((cp =? 34) || (cp =? 92))%N then Some (String bslash raw)
  else if (cp =? 10)%N then Some (String bslash "n")
  else if (cp =? 13)%N then Some (String bslash "r")
  else if (cp =? 9)%N then Some (String bslash "t")
  else if (cp =? 8)%N then Some (String bslash "b")
  else if (cp =? 12)%N then Some (String bslash "f")
  else None.

(** [ensure_ascii=True]: everything outside [' '..'~'] is escaped, a code
    point beyond U+FFFF as its surrogate pair. *)
Definition json_char (ch : N * string) : string :=
  let (cp, raw) := ch in
  match json_named cp raw with
  | Some escaped => escaped
  | None =>
      if ((32 <=? cp) && (cp <? 127))%N then raw
      else if (cp <? 65536)%N then String bslash ("u" ++ hex 4 cp)
      else
        let v := (cp - 65536)%N in
        String bslash ("u" ++ hex 4 (55296 + N.div v 1024)%N)
          ++ String bslash ("u" ++ hex 4 (56320 + N.modulo v 1024)%N)
  end.

Definition json_str (s : string) : string :=
  String dq (flatten (map json_char (chars s)) ++ str1 dq).

Fixpoint spaces (n : nat) : string :=
  match n with
  | O => EmptyString
  | S k => String " " (spaces k)
  end.

(** The line break and indentation in front of an item at nesting [level]. *)
Definition newline_indent (level : nat) : string :=
  String lf (spaces (2 * level)).

(** [json.dumps(v, indent=2)]. *)
Fixpoint dumps_at (level : nat) (v : value) : string :=
  match v with
  | PNone => "null"
  | PBool true => "true"
  | PBool false => "false"
  | PInt n => int_text n
  | PFloat t => t
  | PStr s => json_str s
  | PList [] => "[]"
  | PList l =>
      "[" ++ newline_indent (S level)
          ++ join ("," ++ newline_indent (S level)) (map (dumps_at (S level)) l)
          ++ newline_indent level ++ "]"
  | PDict [] => "{}"
  | PDict d =>
      "{" ++ newline_indent (S level)
          ++ join ("," ++ newline_indent (S level))
               (map (fun kv => json_str (fst kv) ++ ": " ++ dumps_at (S level) (snd kv)) d)
          ++ newline_indent level ++ "}"
  end.

Definition dumps_indent2 (v : value) : string := dumps_at 0 v.

(** [json.dumps(v)] with the default separators, on one line. *)
Fixpoint dumps (v : value) : string :=
  match v with
  | PNone => "null"
  | PBool true => "true"
  | PBool false => "false"
  | PInt n => int_text n
  | PFloat t => t
  | PStr s => json_str s
  | PList l => "[" ++ join ", " (map dumps l) ++ "]"
  | PDict d =>
      "{" ++ join ", " (map (fun kv => json_str (fst kv) ++ ": " ++ dumps (snd kv)) d) ++ "}"
  end.

(** [ensure_ascii=False]: only the quote, the backslash and the controls
    below U+0020 are escaped. *)
Definition render_char (ch : N * string) : string :=
  let (cp, raw) := ch in
  match json_named cp raw with
  | Some escaped => escaped
  | None => if (cp <? 32)%N then String bslash ("u" ++ hex 4 cp) else raw
  end.

Definition render_str (s : string) : string :=
  String dq (flatten (map render_char (chars s)) ++ str1 dq).

(** [json.dumps(v, ensure_ascii=False, allow_nan=False, indent=None,
    separators=(",", ":"))]. *)
Fixpoint render (v : value) : string :=
  match v with
  | PNone => "null"
  | PBool true => "true"
  | PBool false => "false"
  | PInt n => int_text n
  | PFloat t => t
  | PStr s => render_str s
  | PList l => "[" ++ join "," (map render l) ++ "]"
  | PDict d =>
      "{" ++ join "," (map (fun kv => render_str (fst kv) ++ ":" ++ render (snd kv)) d) ++ "}"
  end.

(** The name of a value's type, as error messages print it. *)
Definition type_name (v : value) : string :=
  match v with
  | PNone => "NoneType"
  | PBool _ => "bool"
  | PInt _ => "int"
  | PFloat _ => "float"
  | PStr _ => "str"
  | PList _ => "list"
  | PDict _ => "dict"
  end.

(** *** Exceptions *)

(** The exception classes the request path can meet.  All of them derive
    from [Exception].  [ClientResponseError] derives from [ClientError],
    and [ClientError] here stands for the class and its other subclasses,
    [ClientConnectionError] among them; [OtherError] is any other class
    outside [ClientError], named by [cls]. *)
Inductive exn : Type :=
| ClientResponseError (status : Z) (message : string) (text : string)
| ClientError (text : string)
| ValueError (text : string)
| TypeError (text : string)
| KeyError (key : value)
| IndexError (text : string)
| AttributeError (text : string)
| UnboundLocalError (text : string)
| UnicodeEncodeError (text : string)
| OtherError (cls : string) (text : string).

Inductive result (A : Type) : Type :=
| Ok (a : A)
| Raise (e : exn).
Arguments Ok {A} a.
Arguments Raise {A} e.

(** [text.encode("utf-8")]: the first surrogate of the text, counted in
    code points, and the surrogates that follow it directly, stop the
    encoder. *)
Fixpoint first_surrogate (at_ : nat) (cps : list N) : option (nat * N * list N) :=
  match cps with
  | [] => None
  | cp :: rest =>
      if is_surrogate cp then Some (at_, cp, rest)
      else first_surrogate (S at_) rest
  end.

Fixpoint surrogates_ahead (cps : list N) : nat :=
  match cps with
  | cp :: rest => if is_surrogate cp then S (surrogates_ahead rest) else O
  | [] => O
  end.

Definition encode_utf8 (text : string) : result string :=
  match first_surrogate 0 (codes text) with
  | None => Ok text
  | Some (start, cp, rest) =>
      match surrogates_ahead rest with
      | O =>
          Raise (UnicodeEncodeError
            ("'utf-8' codec can't encode character '" ++ String bslash ("u" ++ hex 4 cp)
               ++ "' in position " ++ int_text (Z.of_nat start)
               ++ ": surrogates not allowed"))
      | more =>
          Raise (UnicodeEncodeError
            ("'utf-8' codec can't encode characters in position "
               ++ int_text (Z.of_nat start) ++ "-" ++ int_text (Z.of_nat (start + more))
               ++ ": surrogates not allowed"))
      end
  end.

(** [v.get(k, default)] on any value: only a [dict] has [get]. *)
Definition method_get (v : value) (k : string) (default : value) : result value :=
  match v with
  | PDict d => Ok (get_default k default d)
  | _ => Raise (AttributeError
                  (String sq (type_name v) ++ str1 sq ++ " object has no attribute 'get'"))
  end.

(** [v[k]] with a [str] key. *)
Definition subscript_str (v : value) (k : string) : result value :=
  match v with
  | PDict d =>
      match lookup k d with
      | Some x => Ok x
      | None => Raise (KeyError (PStr k))
      end
  | PList _ => Raise (TypeError "list indices must be integers or slices, not str")
  | PStr _ => Raise (TypeError "string indices must be integers, not 'str'")
  | _ => Raise (TypeError
                  (String sq (type_name v) ++ str1 sq ++ " object is not subscriptable"))
  end.

(** [v[0]]. *)
Definition subscript_0 (v : value) : result value :=
  match v with
  | PList (x :: _) => Ok x
  | PList [] => Raise (IndexError "list index out of range")
  | PStr s =>
      match chars s with
      | (_, raw) :: _ => Ok (PStr raw)
      | [] => Raise (IndexError "string index out of range")
      end
  | PDict _ => Raise (KeyError (PInt 0))
  | _ => Raise (TypeError
                  (String sq (type_name v) ++ str1 sq ++ " object is not subscriptable"))
  end.

(** *** Text of values *)

(** [str.isprintable] on the code points from U+0080 on comes from the
    Unicode database of the interpreter. *)
Class Unicode : Type := { isprintable : N -> bool }.

Section Text.

Context {U : Unicode}.

Definition printable (cp : N) : bool :=
  if (cp <? 128)%N then ((32 <=? cp) && (cp <? 127))%N else isprintable cp.

Definition repr_char (quote : ascii) (ch : N * string) : string :=
  let (cp, raw) := ch in
  if ((cp =? N_of_ascii quote) || (cp =? 92))%N then String bslash raw
  else if (cp =? 9)%N then String bslash "t"
  else if (cp =? 10)%N then String bslash "n"
  else if (cp =? 13)%N then String bslash "r"
  else if printable cp then raw
  else if (cp <? 256)%N then String bslash ("x" ++ hex 2 cp)
  else if (cp <? 65536)%N then String bslash ("u" ++ hex 4 cp)
  else String bslash ("U" ++ hex 8 cp).

(** [repr(s)] of a [str]: single quotes, unless the text has a single
    quote and no double quote. *)
Definition repr_str (s : string) : string :=
  let quote := if mem_char sq s && negb (mem_char dq s) then dq else sq in
  String quote (flatten (map (repr_char quote) (chars s)) ++ str1 quote).

(** [repr(v)], which is also what an f-string prints for a [dict]. *)
Fixpoint repr (v : value) : string :=
  match v with
  | PNone => "None"
  | PBool true => "True"
  | PBool false => "False"
  | PInt n => int_text n
  | PFloat t => t
  | PStr s => repr_str s
  | PList l => "[" ++ join ", " (map repr l) ++ "]"
  | PDict d =>
      "{" ++ join ", " (map (fun kv => repr_str (fst kv) ++ ": " ++ repr (snd kv)) d) ++ "}"
  end.

(** [str(v)], what [{v}] prints in an f-string. *)
Definition str (v : value) : string :=
  match v with
  | PStr s => s
  | _ => repr v
  end.

(** [str(e)]. *)
Definition exn_str (e : exn) : string :=
  match e with
  | ClientResponseError _ _ t => t
  | ClientError t => t
  | ValueError t => t
  | TypeError t => t
  | KeyError k => repr k
  | IndexError t => t
  | AttributeError t => t
  | UnboundLocalError t => t
  | UnicodeEncodeError t => t
  | OtherError _ t => t
  end.

End Text.

End Py.

Import Py.
(* ================================================================== *)
(** ** Effects: the log and the outbound calls *)
(* ================================================================== *)

Inductive level : Type := DEBUG | INFO | ERROR.

(** The numeric value of a level: a record is written when its level is
    not below the effective level of its logger. *)
Definition levelno (l : level) : Z :=
  match l with DEBUG => 10 | INFO => 20 | ERROR => 40 end.

Record log_record : Type := mk_log
  { logger_name : string; log_level : level; log_message : string }.

(** [session.request(method, url, params=params)]. *)
Record call : Type := mk_call
  { call_method : string; call_url : string; call_params : dict }.

(** What the source reads from the response object: [raise_for_status]
    looks at [status] and [reason], the handler at [content_type], and
    [json] is the outcome of awaiting [response.json()] while the response
    is open.  [real_url] is the address the library requested, which its
    error text prints.  [empty_payload] says that the response came
    without a body, as one with [Content-Length: 0] does. *)
Record response : Type := mk_response
  { status : Z;
    reason : string;
    content_type : string;
    real_url : string;
    empty_payload : bool;
    json : result value }.

(** The outcome of entering [async with session.request(...)]: a response
    is bound, or the call raises and none is. *)
Inductive reply : Type :=
| Responded (r : response)
| Failed (e : exn).

Record world : Type := mk_world
  { logged : list log_record; sent : list call }.

Definition initial : world := {| logged := []; sent := [] |}.

(** Computations that log, call out and may raise. *)
Definition M (A : Type) : Type := world -> result A * world.

Definition ret {A} (a : A) : M A := fun w => (Ok a, w).
Definition raise {A} (e : exn) : M A := fun w => (Raise e, w).
Definition bind {A B} (m : M A) (k : A -> M B) : M B :=
  fun w => match m w with
           | (Ok a, w') => k a w'
           | (Raise e, w') => (Raise e, w')
           end.
Definition lift {A} (r : result A) : M A := fun w => (r, w).

(** [try: m except Exception as e: h e]. *)
Definition try_except {A} (m : M A) (h : exn -> M A) : M A :=
  fun w => match m w with
           | (Ok a, w') => (Ok a, w')
           | (Raise e, w') => h e w'
           end.

Notation "x <- m ;; k" := (bind m (fun x => k))
  (at level 61, m at next level, right associativity).
Notation "m ;;; k" := (bind m (fun _ => k))
  (at level 61, right associativity).

Definition log (name : string) (l : level) (msg : string) : M unit :=
  fun w => (Ok tt, {| logged := logged w ++ [mk_log name l msg]; sent := sent w |}).

(* ================================================================== *)
(** ** hunter_api.py *)
(* ================================================================== *)

Module HunterAPI.

Section WithUnicode.

Context {U : Unicode}.

Definition BASE_URL : string := "https://api.hunter.io/v2".

Definition logger : string := "hunter-api".

(** The client object: its key, and its session seen as what a request
    through it comes back with.  [_ensure_session] only creates the
    session on first use and has no other effect. *)
Record client : Type := mk_client
  { api_key : string; session : call -> reply }.

Definition request (self : client) (c : call) : M reply :=
  fun w => (Ok (session self c), {| logged := logged w; sent := sent w ++ [c] |}).

(** [response.raise_for_status()]: the library raises for a status of 400
    or more, with the reason phrase as [message]. *)
Definition raise_for_status (r : response) : result unit :=
  if 400 <=? status r
  then Raise (ClientResponseError (status r) (reason r)
                (int_text (status r) ++ ", message=" ++ repr_str (reason r)
                   ++ ", url=URL(" ++ repr_str (real_url r) ++ ")"))
  else Ok tt.

(** The body of [async with ... as response:]: the response that gets
    bound, if any, and what the body returns or raises. *)
Definition within (rep : reply) : option response * result value :=
  match rep with
  | Failed e => (None, Raise e)
  | Responded r =>
      match raise_for_status r with
      | Raise e => (Some r, Raise e)
      | Ok _ => (Some r, json r)
      end
  end.

Definition attempt (self : client) (c : call) : M (option response * result value) :=
  rep <- request self c ;;
  ret (within rep).

(** [await response.json()] in a handler, after the [async with] block
    was left.  Leaving the block releases the response, and the release
    fails the stream of a body: when it was [raise_for_status] that
    raised, the body was never read, and reading it now raises
    [ClientConnectionError("Connection closed")].  The stream of a response
    without a body cannot be failed and still reads as empty.  Otherwise
    the handler runs for what [json] raised inside the block, where the
    body was read, and the call ends as that one did. *)
Definition json_released (r : response) : result value :=
  if (400 <=? status r) && negb (empty_payload r)
  then Raise (ClientError "Connection closed")
  else json r.

(** The last line of the first handler: the message out of the error
    data, and the uniform error. *)
Definition api_error (error_data : value) (e_message : string) : M value :=
  errors <- lift (method_get error_data "errors"
                    (PList [PDict [("details", PStr e_message)]])) ;;
  first <- lift (subscript_0 errors) ;;
  details <- lift (method_get first "details" PNone) ;;
  raise (ValueError ("Hunter API error: " ++ str details)).

(** [except aiohttp.ClientResponseError as e:]. *)
Definition on_response_error (bound : option response) (e_status : Z) (e_message : string)
  : M value :=
  log logger ERROR ("API error: " ++ int_text e_status ++ " - " ++ e_message) ;;;
  match bound with
  | None =>
      raise (UnboundLocalError
        "cannot access local variable 'response' where it is not associated with a value")
  | Some r =>
      error_data <-
        (if String.eqb (content_type r) "application/json"
         then lift (json_released r)
         else ret (PDict [("error", PStr e_message)])) ;;
      api_error error_data e_message
  end.

(** [except aiohttp.ClientError as e:]. *)
Definition on_client_error (text : string) : M value :=
  log logger ERROR ("Request error: " ++ text) ;;;
  raise (ValueError ("Request error: " ++ text)).

(** The [except] clauses of [_request], by the class of what was raised. *)
Definition handlers (out : option response * result value) : M value :=
  match out with
  | (_, Ok v) => ret v
  | (bound, Raise (ClientResponseError st msg _)) => on_response_error bound st msg
  | (_, Raise (ClientError text)) => on_client_error text
  | (_, Raise e) => raise e
  end.

Definition _request (self : client) (method endpoint : string) (params : option dict)
  : M value :=
  let params := match params with None => empty_dict | Some p => p end in
  let params := setitem "api_key" (PStr (api_key self)) params in
  let url := BASE_URL ++ "/" ++ endpoint in
  log logger DEBUG
    ("Making " ++ method ++ " request to " ++ url ++ " with params " ++ repr (PDict params)) ;;;
  out <- attempt self (mk_call method url params) ;;
  handlers out.

(** [response.get("data", {})]. *)
Definition unwrap_data (resp : value) : M value :=
  lift (method_get resp "data" (PDict [])).

(** A parameter with a default: [None] when the caller leaves it out. *)
Definition or_default (default : value) (arg : option value) : value :=
  match arg with Some v => v | None => default end.

(** [if v: params[k] = v]. *)
Definition set_if (k : string) (v : value) (params : dict) : dict :=
  if truthy v then setitem k v params else params.

Definition find_email_params (domain : value) (first_name last_name company full_name : option value)
  : dict :=
  let params := [("domain", domain)] in
  let params := set_if "first_name" (or_default PNone first_name) params in
  let params := set_if "last_name" (or_default PNone last_name) params in
  let params := set_if "company" (or_default PNone company) params in
  set_if "full_name" (or_default PNone full_name) params.

Definition find_email (self : client) (domain : value)
    (first_name last_name company full_name : option value) : M value :=
  let params := find_email_params domain first_name last_name company full_name in
  resp <- _request self "GET" "email-finder" (Some params) ;;
  unwrap_data resp.

Definition verify_email (self : client) (email : value) : M value :=
  let params := [("email", email)] in
  resp <- _request self "GET" "email-verifier" (Some params) ;;
  unwrap_data resp.

Definition domain_search_params (domain : value) (limit type : option value) : dict :=
  let params := [("domain", domain); ("limit", or_default (PInt 10) limit)] in
  set_if "type" (or_default PNone type) params.

Definition domain_search (self : client) (domain : value) (limit type : option value)
  : M value :=
  let params := domain_search_params domain limit type in
  resp <- _request self "GET" "domain-search" (Some params) ;;
  unwrap_data resp.

End WithUnicode.

End HunterAPI.

(* ================================================================== *)
(** ** The HTTP surface shared by both servers *)
(* ================================================================== *)

(** What an endpoint hands back to the framework: its status and the
    content that makes its JSON body. *)
Record http_response : Type := mk_http
  { status_code : Z; content : value }.

(** A [dict] the endpoint returns: the framework makes the 200 response
    of it once the endpoint is left. *)
Definition returned (body : value) : http_response :=
  {| status_code := 200; content := body |}.

(** [JSONResponse(status_code=code, content=body)]: the constructor
    renders the body and encodes it as UTF-8, and raises what the encoder
    raises. *)
Definition JSONResponse (code : Z) (body : value) : result http_response :=
  match encode_utf8 (render body) with
  | Ok _ => Ok {| status_code := code; content := body |}
  | Raise e => Raise e
  end.

(** [{"content": [{"type": "text", "text": json.dumps(result, indent=2)}]}]. *)
Definition text_content (result : value) : value :=
  PDict [("content",
          PList [PDict [("type", PStr "text"); ("text", PStr (dumps_indent2 result))]])].

(** [{"error": message}]. *)
Definition error_content (message : string) : value :=
  PDict [("error", PStr message)].

(** [name == "literal"]. *)
Definition eq_str (v : value) (s : string) : bool :=
  match v with
  | PStr t => String.eqb t s
  | _ => false
  end.

Section Binding.

Context {U : Unicode}.

(** Binding [**arguments] to the parameters of [find_email]: every key has
    to name a parameter, [self] is already taken by the bound method, and
    [domain] has no default. *)
Definition find_email_keywords : list string :=
  ["domain"; "first_name"; "last_name"; "company"; "full_name"].

Fixpoint check_keywords (d : dict) : result unit :=
  match d with
  | [] => Ok tt
  | (k, _) :: rest =>
      if String.eqb k "self"
      then Raise (TypeError "HunterAPI.find_email() got multiple values for argument 'self'")
      else if existsb (String.eqb k) find_email_keywords
      then check_keywords rest
      else Raise (TypeError
             ("HunterAPI.find_email() got an unexpected keyword argument '" ++ k ++ "'"))
  end.

Definition call_find_email (hunter_api : HunterAPI.client) (arguments : value) : M value :=
  match arguments with
  | PDict d =>
      lift (check_keywords d) ;;;
      match lookup "domain" d with
      | None =>
          raise (TypeError
            "HunterAPI.find_email() missing 1 required positional argument: 'domain'")
      | Some domain =>
          HunterAPI.find_email hunter_api domain
            (lookup "first_name" d) (lookup "last_name" d)
            (lookup "company" d) (lookup "full_name" d)
      end
  | _ =>
      raise (TypeError
        ("hunter_api.HunterAPI.find_email() argument after ** must be a mapping, not "
           ++ type_name arguments))
  end.

End Binding.

(* ================================================================== *)
(** ** main.py *)
(* ================================================================== *)

Module Main.

Section WithUnicode.

Context {U : Unicode}.

Definition logger : string := "hunter-mcp".

(** [logging.basicConfig(level=logging.DEBUG)]: the records that are
    written, for every logger of the process. *)
Definition written (r : log_record) : bool := levelno DEBUG <=? levelno (log_level r).

(** The [TOOLS] registry: each tool's name and the [required] and [anyOf]
    rules of its [inputSchema]. *)
Record tool : Type := mk_tool
  { tool_name : string; required : list string; anyOf : list (list string) }.

Definition TOOLS : list tool :=
  [ mk_tool "email_finder" ["domain"] [["first_name"; "last_name"]; ["full_name"]];
    mk_tool "email_verifier" ["email"] [];
    mk_tool "domain_search" ["domain"] [] ].

Definition registered (name : value) : bool :=
  existsb (fun t => eq_str name (tool_name t)) TOOLS.


(** The [try] block of [call_tool]. *)
Definition dispatch (hunter_api : HunterAPI.client) (name arguments : value)
  : M http_response :=
  if eq_str name "email_finder" then
    result <- call_find_email hunter_api arguments ;;
    ret (returned (text_content result))
  else if eq_str name "email_verifier" then
    email <- lift (subscript_str arguments "email") ;;
    result <- HunterAPI.verify_email hunter_api email ;;
    ret (returned (text_content result))
  else if eq_str name "domain_search" then
    limit <- lift (method_get arguments "limit" (PInt 10)) ;;
    email_type <- lift (method_get arguments "type" PNone) ;;
    domain <- lift (subscript_str arguments "domain") ;;
    result <- HunterAPI.domain_search hunter_api domain (Some limit) (Some email_type) ;;
    ret (returned (text_content result))
  else
    lift (JSONResponse 404 (error_content ("Unknown tool: " ++ str name))).

(** [POST /tools/call].  [body] is what [await request.json()] gives: the
    parsed body, or the exception of the parser.  An exception that leaves
    [call_tool] goes to the framework. *)
Definition call_tool (hunter_api : HunterAPI.client) (body : result value)
  : M http_response :=
  data <- lift body ;;
  name <- lift (method_get data "name" PNone) ;;
  arguments <- lift (method_get data "arguments" (PDict [])) ;;
  log logger INFO ("Tool call: " ++ str name ++ " with arguments " ++ str arguments) ;;;
  try_except (dispatch hunter_api name arguments)
    (fun e =>
       log logger ERROR ("Error executing tool " ++ str name ++ ": " ++ exn_str e) ;;;
       lift (JSONResponse 500 (error_content (exn_str e)))).

(** *** [GET /sse]: the event generator *)

Record sse_event : Type := mk_event { event : string; data : string }.

(** Where the generator is suspended: not yet started, at one of its
    [yield]s, inside one of its [asyncio.sleep]s, or finished.  In the
    keep-alive loop [count] is the value of the local counter. *)
Inductive point : Type :=
| NotStarted
| AtConnected
| Sleep1
| AtCapabilities
| Sleep2
| AtInitComplete
| Sleep3
| SleepPing (count : Z)
| AtPing (count : Z)
| Finished.

(** What can be raised at a suspension point.  [CancelledError] and
    [GeneratorExit] are not subclasses of [Exception]. *)
Inductive thrown : Type :=
| CancelledError
| GeneratorExit
| Error (e : exn).

(** How the generator is woken: normally, [now] being the text of what the
    loop clock reads at that moment, or with an exception. *)
Inductive signal : Type :=
| Resume (now : string)
| Throw (t : thrown).

(** What the generator does until it is suspended again: it yields an
    event, awaits a sleep of so many milliseconds, returns, or lets an
    exception out. *)
Inductive outcome : Type :=
| Yielded (ev : sse_event)
| Awaiting (ms : Z)
| Stopped
| Propagated (t : thrown).

Definition connected_event : sse_event :=
  mk_event "connected"
    (dumps (PDict [("server", PStr "hunter-mcp"); ("version", PStr "1.0.0")])).

Definition capabilities_event : sse_event :=
  mk_event "capabilities"
    (dumps (PDict [("tools", PBool true); ("resources", PBool true); ("logging", PBool true)])).

Definition initialization_complete_event : sse_event :=
  mk_event "initialization_complete" (dumps (PDict [])).

Definition ping_event (now : string) : sse_event :=
  mk_event "ping" (dumps (PDict [("timestamp", PFloat now)])).

(** The delays, in milliseconds: [asyncio.sleep(0.1)] and [asyncio.sleep(10)]. *)
Definition small_delay : Z := 100.
Definition ping_interval : Z := 10000.

(** The two [except] clauses around the body. *)
Definition handle (t : thrown) : list log_record * outcome * point :=
  match t with
  | CancelledError =>
      ([mk_log logger INFO "SSE connection was cancelled"], Stopped, Finished)
  | Error e =>
      ([mk_log logger ERROR ("Error in SSE event generator: " ++ exn_str e)],
       Propagated (Error e), Finished)
  | GeneratorExit => ([], Propagated GeneratorExit, Finished)
  end.

Definition event_generator (p : point) (s : signal) : list log_record * outcome * point :=
  match p, s with
  | NotStarted, Resume _ =>
      ([mk_log logger INFO "Sending connected event"], Yielded connected_event, AtConnected)
  | NotStarted, Throw t => ([], Propagated t, Finished)
  | AtConnected, Resume _ => ([], Awaiting small_delay, Sleep1)
  | Sleep1, Resume _ =>
      ([mk_log logger INFO "Sending capabilities event"],
       Yielded capabilities_event, AtCapabilities)
  | AtCapabilities, Resume _ => ([], Awaiting small_delay, Sleep2)
  | Sleep2, Resume _ =>
      ([mk_log logger INFO "Sending initialization_complete event"],
       Yielded initialization_complete_event, AtInitComplete)
  | AtInitComplete, Resume _ => ([], Awaiting small_delay, Sleep3)
  | Sleep3, Resume _ => ([], Awaiting ping_interval, SleepPing 0)
  | SleepPing count, Resume now =>
      let count := count + 1 in
      ([mk_log logger DEBUG ("Sending ping event " ++ int_text count)],
       Yielded (ping_event now), AtPing count)
  | AtPing count, Resume _ => ([], Awaiting ping_interval, SleepPing count)
  | Finished, Resume _ => ([], Stopped, Finished)
  | Finished, Throw t => ([], Propagated t, Finished)
  | _, Throw t => handle t
  end.

(** Driving the generator with a sequence of signals. *)
Fixpoint run (p : point) (signals : list signal) : list (list log_record * outcome) * point :=
  match signals with
  | [] => ([], p)
  | s :: rest =>
      let '(logs, out, p') := event_generator p s in
      let '(trace, q) := run p' rest in
      ((logs, out) :: trace, q)
  end.

Definition outcomes (trace : list (list log_record * outcome)) : list outcome :=
  map snd trace.

Fixpoint events (outs : list outcome) : list sse_event :=
  match outs with
  | [] => []
  | Yielded ev :: rest => ev :: events rest
  | _ :: rest => events rest
  end.

Definition records (trace : list (list log_record * outcome)) : list log_record :=
  concat (map fst trace).


(** *** Resources *)

(** The [RESOURCES] registry. *)
Definition RESOURCES : list value :=
  [ PDict [("uri", PStr "hunter://api-info");
           ("title", PStr "Hunter API Information");
           ("description",
            PStr "Information about the Hunter API and available endpoints")] ].

(** [GET /resources/list]. *)
Definition list_resources : http_response :=
  returned (PDict [("resources", PList RESOURCES)]).

(** The markdown document of [read_resource]. *)
Definition api_info : string := "
# Hunter API

Hunter is an email finding and verification service that allows you to:
- Find email addresses from a domain name
- Verify the deliverability of email addresses
- Find the most likely email address from a domain name, first name, and last name

## Available Tools

1. **email_finder** - Find the most likely email address from a domain name, first name, and last name
2. **email_verifier** - Verify the deliverability of an email address
3. **domain_search** - Find email addresses from a domain name

## API Documentation
For more information, visit: https://hunter.io/api-documentation/v2
".

(** [GET /resources/read?uri=...]. *)
Definition read_resource (uri : string) : result http_response :=
  if String.eqb uri "hunter://api-info"
  then Ok (returned (PDict [("type", PStr "text/markdown"); ("data", PStr api_info)]))
  else JSONResponse 404 (error_content ("Unknown resource: " ++ uri)).

(** *** Start-up *)

(** How the module's top level ends: [exit(1)] after its records, or with
    the client the endpoints use. *)
Inductive boot : Type :=
| Exit (code : Z) (records : list log_record)
| Serving (hunter_api : HunterAPI.client).

(** The top level of the module: [env_key] is
    [os.environ.get("HUNTER_API_KEY")], [upstream] what the client's
    session will answer. *)
Definition startup (env_key : option string) (upstream : call -> reply) : boot :=
  match env_key with
  | Some key =>
      if truthy (PStr key)
      then Serving (HunterAPI.mk_client key upstream)
      else Exit 1 [mk_log logger ERROR "HUNTER_API_KEY environment variable is not set";
                   mk_log logger ERROR "Please add your API key to the .env file"]
  | None =>
      Exit 1 [mk_log logger ERROR "HUNTER_API_KEY environment variable is not set";
              mk_log logger ERROR "Please add your API key to the .env file"]
  end.

End WithUnicode.

End Main.

(* ================================================================== *)
(** ** simple_mcp.py *)
(* ================================================================== *)

Module SimpleMcp.

Section WithUnicode.

Context {U : Unicode}.

Definition logger : string := "hunter-mcp-simple".

(** [logging.basicConfig(level=logging.INFO)]. *)
Definition written (r : log_record) : bool := levelno INFO <=? levelno (log_level r).

(** [POST /tools/call] of the reduced server: the whole body of the
    endpoint, reading the request included, is inside the [try]. *)
Definition call_tool (hunter_api : HunterAPI.client) (body : result value)
  : M http_response :=
  try_except
    (data <- lift body ;;
     name <- lift (method_get data "name" PNone) ;;
     arguments <- lift (method_get data "arguments" (PDict [])) ;;
     log logger INFO ("Tool call: " ++ str name ++ " with arguments " ++ str arguments) ;;;
     if eq_str name "email_finder" then
       result <- call_find_email hunter_api arguments ;;
       ret (returned (text_content result))
     else if eq_str name "domain_search" then
       domain <- lift (subscript_str arguments "domain") ;;
       result <- HunterAPI.domain_search hunter_api domain None None ;;
       ret (returned (text_content result))
     else
       log logger ERROR ("Unknown tool: " ++ str name) ;;;
       lift (JSONResponse 404 (error_content ("Unknown tool: " ++ str name))))
    (fun e =>
       log logger ERROR ("Error executing tool: " ++ exn_str e) ;;;
       lift (JSONResponse 500 (error_content (exn_str e)))).

(** The tools [list_tools] announces: names and [required] fields. *)
Definition TOOLS : list Main.tool :=
  [ Main.mk_tool "email_finder" ["domain"; "first_name"; "last_name"] [];
    Main.mk_tool "domain_search" ["domain"] [] ].

Definition registered (name : value) : bool :=
  existsb (fun t => eq_str name (Main.tool_name t)) TOOLS.

(** The top level of the module. *)
Definition startup (env_key : option string) (upstream : call -> reply) : Main.boot :=
  match env_key with
  | Some key =>
      if truthy (PStr key)
      then Main.Serving (HunterAPI.mk_client key upstream)
      else Main.Exit 1
             [mk_log logger ERROR "HUNTER_API_KEY environment variable is not set"]
  | None =>
      Main.Exit 1 [mk_log logger ERROR "HUNTER_API_KEY environment variable is not set"]
  end.

(** *** [GET /sse] of the reduced server *)

Inductive point : Type :=
| NotStarted
| AtConnected
| Sleep1
| AtCapabilities
| SleepPing
| AtPing
| Finished.

Definition connected_event : Main.sse_event :=
  Main.mk_event "connected"
    (dumps (PDict [("server", PStr "hunter-mcp-simple"); ("version", PStr "1.0.0")])).

Definition capabilities_event : Main.sse_event :=
  Main.mk_event "capabilities"
    (dumps (PDict [("tools", PDict [("list", PBool true); ("call", PBool true)])])).

Definition ping_event (now : string) : Main.sse_event :=
  Main.mk_event "ping" (dumps (PDict [("timestamp", PFloat now)])).

(** [asyncio.sleep(0.1)] and [asyncio.sleep(30)], in milliseconds. *)
Definition small_delay : Z := 100.
Definition ping_interval : Z := 30000.

(** The two [except] clauses: the second one logs and does not re-raise. *)
Definition handle (t : Main.thrown) : list log_record * Main.outcome * point :=
  match t with
  | Main.CancelledError =>
      ([mk_log logger INFO "SSE connection was cancelled"], Main.Stopped, Finished)
  | Main.Error e =>
      ([mk_log logger ERROR ("Error in SSE event generator: " ++ exn_str e)],
       Main.Stopped, Finished)
  | Main.GeneratorExit => ([], Main.Propagated Main.GeneratorExit, Finished)
  end.

Definition event_generator (p : point) (s : Main.signal)
  : list log_record * Main.outcome * point :=
  match p, s with
  | NotStarted, Main.Resume _ =>
      ([mk_log logger INFO "Sending connected event"],
       Main.Yielded connected_event, AtConnected)
  | NotStarted, Main.Throw t => ([], Main.Propagated t, Finished)
  | AtConnected, Main.Resume _ => ([], Main.Awaiting small_delay, Sleep1)
  | Sleep1, Main.Resume _ =>
      ([mk_log logger INFO "Sending capabilities event"],
       Main.Yielded capabilities_event, AtCapabilities)
  | AtCapabilities, Main.Resume _ => ([], Main.Awaiting ping_interval, SleepPing)
  | SleepPing, Main.Resume now => ([], Main.Yielded (ping_event now), AtPing)
  | AtPing, Main.Resume _ => ([], Main.Awaiting ping_interval, SleepPing)
  | Finished, Main.Resume _ => ([], Main.Stopped, Finished)
  | Finished, Main.Throw t => ([], Main.Propagated t, Finished)
  | _, Main.Throw t => handle t
  end.

Fixpoint run (p : point) (signals : list Main.signal)
  : list (list log_record * Main.outcome) * point :=
  match signals with
  | [] => ([], p)
  | s :: rest =>
      let '(logs, out, p') := event_generator p s in
      let '(trace, q) := run p' rest in
      ((logs, out) :: trace, q)
  end.

End WithUnicode.

End SimpleMcp.

(* ================================================================== *)
(** ** Vocabulary of the statements *)
(* ================================================================== *)

(** [needle in text]. *)
Fixpoint occurs (needle text : string) : bool :=
  String.prefix needle text
  || match text with
     | EmptyString => false
     | String _ rest => occurs needle rest
     end.

(** [text.endswith(suffix)]. *)
Fixpoint ends_with (suffix text : string) : bool :=
  String.eqb suffix text
  || match text with
     | EmptyString => false
     | String _ rest => ends_with suffix rest
     end.

(** A text between double quotes, as JSON writes a plain string. *)
Definition quoted (text : string) : string :=
  String "034"%char (text ++ String "034"%char EmptyString).

(** A body that UTF-8 can encode: its JSON text holds no surrogate. *)
Definition encodable (body : value) : bool :=
  match encode_utf8 (render body) with
  | Ok _ => true
  | Raise _ => false
  end.

(** A text of ASCII characters only. *)
Fixpoint ascii_only (text : string) : bool :=
  match text with
  | EmptyString => true
  | String c rest => (N_of_ascii c <? 128)%N && ascii_only rest
  end.



(** The calls an endpoint or operation added to the world. *)
Definition calls_made (before after : world) : list call :=
  skipn (length (sent before)) (sent after).

Definition records_made (before after : world) : list log_record :=
  skipn (length (logged before)) (logged after).

(** A reply with a status below 400 whose body parses to [v]. *)
Definition success (v : value) (rep : reply) : Prop :=
  exists r, rep = Responded r /\ status r < 400 /\ json r = Ok v.

(** The call an operation makes: [GET] on the endpoint, with the
    parameters and the key. *)
Definition outbound (self : HunterAPI.client) (endpoint : string) (params : dict) : call :=
  mk_call "GET" ("https://api.hunter.io/v2/" ++ endpoint)
    (setitem "api_key" (PStr (HunterAPI.api_key self)) params).

(** A parameter is sent when the caller passed a value that tests true. *)
Definition supplied (arg : option value) : option value :=
  match arg with
  | Some v => if truthy v then Some v else None
  | None => None
  end.

(** Sample replies and a sample client for the concrete runs below. *)
Definition ok_reply (v : value) : reply :=
  Responded
    (mk_response 200 "OK" "application/json" "https://api.hunter.io/v2/" false (Ok v)).

Definition error_reply (code : Z) (phrase ctype : string) (v : value) : reply :=
  Responded (mk_response code phrase ctype "https://api.hunter.io/v2/" false (Ok v)).

Definition replying (rep : reply) : HunterAPI.client :=
  HunterAPI.mk_client "k3y-0123" (fun _ => rep).

(** A [POST /tools/call] body. *)
Definition tool_call (name : string) (arguments : dict) : value :=
  PDict [("name", PStr name); ("arguments", PDict arguments)].

(** The lone surrogate U+D800, as a [str]. *)
Definition lone_surrogate : string :=
  String "237"%char (String "160"%char (String "128"%char EmptyString)).

(** A table for the concrete runs: [str.isprintable] as it is on U+0080 to
    U+00FF.  The runs print no code point beyond. *)
Definition latin1_table : Unicode :=
  {| isprintable := fun cp => ((161 <=? cp) && negb (cp =? 173) && (cp <? 256))%N |}.

(** The operations of the client, as calls. *)
Inductive op : Type :=
| FindEmail (domain : value) (first_name last_name company full_name : option value)
| VerifyEmail (email : value)
| DomainSearch (domain : value) (limit type : option value).

(** The error body of the upstream for a bad key. *)
Definition invalid_key_body : value :=
  PDict [("errors", PList [PDict [("details", PStr "Invalid API key")]])].

(** Two exceptions that differ at most in the text of a
    [ClientResponseError], which the library makes and which prints the
    requested address. *)
Definition exn_alike (e e' : exn) : Prop :=
  match e, e' with
  | ClientResponseError st m _, ClientResponseError st' m' _ => st = st' /\ m = m'
  | _, _ => e = e'
  end.

(** Two replies that say the same: the same status, reason, content type
    and body (or lack of one), or the same exception.  They may differ in
    [real_url] and in the text of a [ClientResponseError], except that of
    one [json] raises for a body announced as [application/json], which
    the library never does. *)
Definition reply_alike (rep rep' : reply) : Prop :=
  match rep, rep' with
  | Failed e, Failed e' => exn_alike e e'
  | Responded r, Responded r' =>
      status r = status r'
      /\ reason r = reason r'
      /\ content_type r = content_type r'
      /\ empty_payload r = empty_payload r'
      /\ match json r, json r' with
         | Ok v, Ok v' => v = v'
         | Raise e, Raise e' =>
             if String.eqb (content_type r) "application/json" then e = e'
             else exn_alike e e'
         | _, _ => False
         end
  | _, _ => False
  end.

(** Two clients whose upstreams answer alike, each asked with its own key. *)
Definition alike_answers (self self' : HunterAPI.client) : Prop :=
  forall method url p,
    reply_alike
      (HunterAPI.session self
         (mk_call method url (setitem "api_key" (PStr (HunterAPI.api_key self)) p)))
      (HunterAPI.session self'
         (mk_call method url (setitem "api_key" (PStr (HunterAPI.api_key self')) p))).

(** The log without its DEBUG records. *)
Definition beside_debug (records : list log_record) : list log_record :=
  filter (fun r => match log_level r with DEBUG => false | _ => true end) records.

(** The handshake of an SSE session of [main.py], as the generator is
    resumed step by step: each event, then a sleep of 0.1 seconds. *)
Definition handshake : list Main.outcome :=
  [ Main.Yielded
      (Main.mk_event "connected"
         ("{" ++ quoted "server" ++ ": " ++ quoted "hunter-mcp" ++ ", "
              ++ quoted "version" ++ ": " ++ quoted "1.0.0" ++ "}"));
    Main.Awaiting 100;
    Main.Yielded
      (Main.mk_event "capabilities"
         ("{" ++ quoted "tools" ++ ": true, " ++ quoted "resources" ++ ": true, "
              ++ quoted "logging" ++ ": true}"));
    Main.Awaiting 100;
    Main.Yielded (Main.mk_event "initialization_complete" "{}");
    Main.Awaiting 100 ].

(** A ping that carries the clock reading [now]. *)
Definition ping (now : string) : Main.sse_event :=
  Main.mk_event "ping" ("{" ++ quoted "timestamp" ++ ": " ++ now ++ "}").

(** The keep-alive phase: a sleep of 10 seconds, then a ping stamped with
    the clock, over and over.  [slept] says whether the generator is
    waking from the sleep. *)
Fixpoint keep_alive (slept : bool) (nows : list string) : list Main.outcome :=
  match nows with
  | [] => []
  | now :: rest =>
      (if slept then Main.Yielded (ping now) else Main.Awaiting 10000)
        :: keep_alive (negb slept) rest
  end.

(** What a session does over its first resumptions. *)
Definition session_outcomes (nows : list string) : list Main.outcome :=
  (firstn (length nows) handshake ++ keep_alive false (skipn 6 nows))%list.

(** The generator has started and not finished: it is inside its [try]. *)
Definition running (p : Main.point) : bool :=
  match p with
  | Main.NotStarted | Main.Finished => false
  | _ => true
  end.

(** The addresses the client calls. *)
Definition endpoints : list string :=
  [ "https://api.hunter.io/v2/email-finder";
    "https://api.hunter.io/v2/email-verifier";
    "https://api.hunter.io/v2/domain-search" ].

(** What a call has to look like to be one of the client's. *)
Definition client_call (self : HunterAPI.client) (c : call) : Prop :=
  call_method c = "GET"
  /\ In (call_url c) endpoints
  /\ lookup "api_key" (call_params c) = Some (PStr (HunterAPI.api_key self)).

(** The [uri]s that [RESOURCES] lists. *)
Definition listed_uris : list string :=
  flat_map (fun entry =>
              match entry with
              | PDict d => match lookup "uri" d with Some (PStr u) => [u] | _ => [] end
              | _ => []
              end) Main.RESOURCES.

(** A value that is not a [dict]. *)
Definition not_dict (v : value) : bool :=
  match v with PDict _ => false | _ => true end.

(** The DEBUG record of the [n]-th ping of [main.py]. *)
Definition ping_record (n : nat) : log_record :=
  mk_log "hunter-mcp" DEBUG ("Sending ping event " ++ int_text (Z.of_nat n)).

(** The session of [simple_mcp.py], step by step: two events with a sleep
    of 0.1 seconds between them, then a sleep of 30 seconds before each
    ping. *)
Definition simple_handshake : list Main.outcome :=
  [ Main.Yielded
      (Main.mk_event "connected"
         ("{" ++ quoted "server" ++ ": " ++ quoted "hunter-mcp-simple" ++ ", "
              ++ quoted "version" ++ ": " ++ quoted "1.0.0" ++ "}"));
    Main.Awaiting 100;
    Main.Yielded
      (Main.mk_event "capabilities"
         ("{" ++ quoted "tools" ++ ": {" ++ quoted "list" ++ ": true, "
              ++ quoted "call" ++ ": true}}")) ].

Fixpoint simple_keep_alive (slept : bool) (nows : list string) : list Main.outcome :=
  match nows with
  | [] => []
  | now :: rest =>
      (if slept then Main.Yielded (ping now) else Main.Awaiting 30000)
        :: simple_keep_alive (negb slept) rest
  end.

(** The generator of [simple_mcp.py] is inside its [try]. *)
Definition simple_running (p : SimpleMcp.point) : bool :=
  match p with
  | SimpleMcp.NotStarted | SimpleMcp.Finished => false
  | _ => true
  end.

(** The keys of the arguments all name parameters of [find_email]. *)
Definition keywords_known (d : dict) : bool :=
  forallb (fun kv => existsb (String.eqb (fst kv)) find_email_keywords) d.

Section Vocabulary.

Context {U : Unicode}.

(** The three operations share one shape: [_request] with [GET], then
    [response.get("data", {})]. *)
Definition operation (self : HunterAPI.client) (endpoint : string) (params : dict)
  : M value :=
  resp <- HunterAPI._request self "GET" endpoint (Some params) ;;
  HunterAPI.unwrap_data resp.

(** What an operation returns or raises, given the upstream's reply. *)
Definition answer (rep : reply) : result value :=
  match fst (HunterAPI.handlers (HunterAPI.within rep) initial) with
  | Ok v => method_get v "data" (PDict [])
  | Raise e => Raise e
  end.

(** The DEBUG record [_request] writes before the call. *)
Definition debug_record (c : call) : log_record :=
  mk_log "hunter-api" DEBUG
    ("Making " ++ call_method c ++ " request to " ++ call_url c
       ++ " with params " ++ repr (PDict (call_params c))).

Definition perform (self : HunterAPI.client) (o : op) : M value :=
  match o with
  | FindEmail d f l c n => HunterAPI.find_email self d f l c n
  | VerifyEmail e => HunterAPI.verify_email self e
  | DomainSearch d l t => HunterAPI.domain_search self d l t
  end.

(** The call an operation sends. *)
Definition op_call (self : HunterAPI.client) (o : op) : call :=
  match o with
  | FindEmail d f l c n =>
      outbound self "email-finder" (HunterAPI.find_email_params d f l c n)
  | VerifyEmail e => outbound self "email-verifier" [("email", e)]
  | DomainSearch d l t =>
      outbound self "domain-search" (HunterAPI.domain_search_params d l t)
  end.

(** The INFO record [call_tool] of [main.py] writes on entry. *)
Definition tool_call_record (name arguments : value) : log_record :=
  mk_log "hunter-mcp" INFO
    ("Tool call: " ++ str name ++ " with arguments " ++ str arguments).

(** The ERROR record [call_tool] of [main.py] writes for an exception. *)
Definition tool_error_record (name : value) (message : string) : log_record :=
  mk_log "hunter-mcp" ERROR ("Error executing tool " ++ str name ++ ": " ++ message).

(** The ERROR records the handlers of [_request] write for a reply. *)
Definition error_records (rep : reply) : list log_record :=
  logged (snd (HunterAPI.handlers (HunterAPI.within rep) initial)).

End Vocabulary.

(* ================================================================== *)
(** ** Basic facts *)
(* ================================================================== *)

Section Dict.

Lemma lookup_setitem_same (k : string) (v : value) (d : dict) :
  lookup k (setitem k v d) = Some v.
Proof.
  induction d as [|[k' v'] d IH]; simpl.
  - now rewrite String.eqb_refl.
  - destruct (String.eqb k k') eqn:E; simpl; rewrite E; auto.
Qed.

Lemma lookup_setitem_other (k k' : string) (v : value) (d : dict) :
  k <> k' -> lookup k' (setitem k v d) = lookup k' d.
Proof.
  intros Hne. induction d as [|[k0 v0] d IH]; simpl.
  - destruct (String.eqb k' k) eqn:E; auto.
    apply String.eqb_eq in E. congruence.
  - destruct (String.eqb k k0) eqn:E; simpl.
    + apply String.eqb_eq in E. subst k0.
      destruct (String.eqb k' k) eqn:E'; auto.
      apply String.eqb_eq in E'. congruence.
    + now rewrite IH.
Qed.

Lemma skipn_app_exact {A} (l l' : list A) : skipn (length l) (l ++ l') = l'.
Proof. induction l; simpl; auto. Qed.

End Dict.

(** Case analysis on the first [result] the goal branches on. *)
Ltac case_result :=
  match goal with
  | |- context [match ?x with Ok _ => _ | Raise _ => _ end] => destruct x; simpl
  end.

Section Request.

Context {U : Unicode}.

Variable self : HunterAPI.client.

(** The last line of the first handler makes no call and writes no
    record. *)
Lemma api_error_frame (error_data : value) (e_message : string) (w : world) :
  HunterAPI.api_error error_data e_message w =
    (fst (HunterAPI.api_error error_data e_message initial), w).
Proof.
  unfold HunterAPI.api_error, bind, lift, raise.
  repeat case_result; reflexivity.
Qed.

(** The handlers make no call and only add to the log; what they return
    and what they add do not depend on the world. *)
Lemma handlers_frame (out : option response * result value) (w : world) :
  HunterAPI.handlers out w =
    (fst (HunterAPI.handlers out initial),
     {| logged := logged w ++ logged (snd (HunterAPI.handlers out initial));
        sent := sent w |}).
Proof.
  destruct w as [lg st].
  destruct out as [bound [v | e]]; simpl.
  - now rewrite app_nil_r.
  - destruct e; simpl; try (rewrite app_nil_r; reflexivity).
    + unfold HunterAPI.on_response_error, bind, log, raise, lift, ret; simpl.
      destruct bound as [r|]; simpl; [| reflexivity].
      destruct (String.eqb (content_type r) "application/json"); simpl.
      * destruct (HunterAPI.json_released r); simpl; [| reflexivity].
        rewrite api_error_frame. symmetry. rewrite api_error_frame. reflexivity.
      * rewrite api_error_frame. symmetry. rewrite api_error_frame. reflexivity.
    + reflexivity.
Qed.

(** One run of [_request]: the DEBUG record, the one call, then the
    handlers. *)
Lemma request_run (method endpoint : string) (p : dict) (w : world) :
  let params := setitem "api_key" (PStr (HunterAPI.api_key self)) p in
  let c := mk_call method (HunterAPI.BASE_URL ++ "/" ++ endpoint) params in
  HunterAPI._request self method endpoint (Some p) w =
    HunterAPI.handlers (HunterAPI.within (HunterAPI.session self c))
      {| logged := logged w ++
           [mk_log HunterAPI.logger DEBUG
              ("Making " ++ method ++ " request to "
                 ++ (HunterAPI.BASE_URL ++ "/" ++ endpoint)
                 ++ " with params " ++ repr (PDict params))];
         sent := sent w ++ [c] |}.
Proof. reflexivity. Qed.

End Request.

Section Operations.

Context {U : Unicode}.

Variable self : HunterAPI.client.

Lemma operation_run (endpoint : string) (params : dict) (w : world) :
  operation self endpoint params w =
    (answer (HunterAPI.session self (outbound self endpoint params)),
     {| logged := logged w ++ debug_record (outbound self endpoint params)
                    :: error_records (HunterAPI.session self (outbound self endpoint params));
        sent := sent w ++ [outbound self endpoint params] |}).
Proof.
  unfold operation, bind.
  rewrite request_run. cbv zeta. rewrite handlers_frame.
  unfold answer, error_records. cbn [logged sent].
  rewrite <- app_assoc.
  change (mk_call "GET" (HunterAPI.BASE_URL ++ "/" ++ endpoint)
            (setitem "api_key" (PStr (HunterAPI.api_key self)) params))
    with (outbound self endpoint params).
  destruct (fst (HunterAPI.handlers _ initial)); reflexivity.
Qed.

Lemma find_email_operation domain first_name last_name company full_name :
  HunterAPI.find_email self domain first_name last_name company full_name =
  operation self "email-finder"
    (HunterAPI.find_email_params domain first_name last_name company full_name).
Proof. reflexivity. Qed.

Lemma verify_email_operation email :
  HunterAPI.verify_email self email = operation self "email-verifier" [("email", email)].
Proof. reflexivity. Qed.

Lemma domain_search_operation domain limit type :
  HunterAPI.domain_search self domain limit type =
  operation self "domain-search" (HunterAPI.domain_search_params domain limit type).
Proof. reflexivity. Qed.

Lemma perform_run (o : op) (w : world) :
  perform self o w =
    (answer (HunterAPI.session self (op_call self o)),
     {| logged := logged w ++ debug_record (op_call self o)
                    :: error_records (HunterAPI.session self (op_call self o));
        sent := sent w ++ [op_call self o] |}).
Proof.
  destruct o; cbn [perform op_call].
  - rewrite find_email_operation. exact (operation_run _ _ _).
  - rewrite verify_email_operation. exact (operation_run _ _ _).
  - rewrite domain_search_operation. exact (operation_run _ _ _).
Qed.

Lemma calls_made_run (w : world) (lg : list log_record) (cs : list call) :
  calls_made w {| logged := lg; sent := sent w ++ cs |} = cs.
Proof. unfold calls_made. simpl. apply skipn_app_exact. Qed.

Lemma calls_made_sent (w w' : world) (cs : list call) :
  sent w' = (sent w ++ cs)%list -> calls_made w w' = cs.
Proof. unfold calls_made. intros ->. apply skipn_app_exact. Qed.

Lemma calls_made_none (w w' : world) :
  sent w' = sent w -> calls_made w w' = [].
Proof. intros H. apply calls_made_sent. rewrite H. now rewrite app_nil_r. Qed.

Lemma answer_success (v : value) (rep : reply) :
  success v rep -> answer rep = method_get v "data" (PDict []).
Proof.
  intros (r & -> & Hst & Hjs). unfold answer, HunterAPI.within, HunterAPI.raise_for_status.
  destruct (400 <=? status r) eqn:E; [apply Z.leb_le in E; lia |].
  rewrite Hjs. reflexivity.
Qed.

End Operations.

(* ================================================================== *)
(** ** ASCII text is encodable *)
(* ================================================================== *)

Section Ascii.

Lemma ascii_only_app (a b : string) :
  ascii_only (a ++ b) = ascii_only a && ascii_only b.
Proof.
  induction a as [|c a IH]; simpl; [reflexivity |].
  rewrite IH. now rewrite andb_assoc.
Qed.

Lemma ascii_only_flatten (parts : list string) :
  forallb ascii_only parts = true -> ascii_only (flatten parts) = true.
Proof.
  induction parts as [|p parts IH]; simpl; [reflexivity |].
  intros H. apply andb_true_iff in H. destruct H as [Hp Hr].
  rewrite ascii_only_app, Hp. now apply IH.
Qed.

Lemma chars_ascii (s : string) :
  ascii_only s = true ->
  chars s = map (fun c => (N_of_ascii c, str1 c)) (list_ascii_of_string s).
Proof.
  induction s as [|c s IH]; [reflexivity |].
  intros H. cbn [ascii_only] in H. apply andb_true_iff in H. destruct H as [Hc Hs].
  cbn [chars list_ascii_of_string map].
  assert (H192 : (N_of_ascii c <? 192)%N = true).
  { apply N.ltb_lt. apply N.ltb_lt in Hc. lia. }
  rewrite H192. now rewrite IH.
Qed.

Lemma surrogate_free (s : string) (at_ : nat) :
  ascii_only s = true -> first_surrogate at_ (codes s) = None.
Proof.
  intros H. unfold codes. rewrite (chars_ascii s H). clear H.
  revert at_. induction s as [|c s IH]; intros at_; [reflexivity |].
  cbn [list_ascii_of_string map first_surrogate fst].
  assert (Hc : is_surrogate (N_of_ascii c) = false).
  { unfold is_surrogate. apply andb_false_iff. left. apply N.leb_gt.
    pose proof (N_ascii_bounded c). lia. }
  rewrite Hc. apply IH.
Qed.

Lemma encode_ascii (s : string) : ascii_only s = true -> encode_utf8 s = Ok s.
Proof. intros H. unfold encode_utf8. now rewrite surrogate_free. Qed.

Lemma hex_digit_ascii (n : N) : (N_of_ascii (hex_digit n) <? 128)%N = true.
Proof.
  destruct n as [|p]; [reflexivity |].
  do 4 (destruct p as [p|p|]; try reflexivity).
Qed.

Lemma hex_ascii (width : nat) (n : N) : ascii_only (hex width n) = true.
Proof.
  revert n. induction width as [|w IH]; intros n; [reflexivity |].
  cbn [hex]. rewrite ascii_only_app, IH. cbn [str1 ascii_only].
  now rewrite hex_digit_ascii.
Qed.

Lemma digits_ascii (d : Decimal.uint) : ascii_only (NilEmpty.string_of_uint d) = true.
Proof. induction d; simpl; auto. Qed.

Lemma uint_ascii (d : Decimal.uint) : ascii_only (NilZero.string_of_uint d) = true.
Proof. destruct d; try reflexivity; apply digits_ascii. Qed.

Lemma int_text_ascii (n : Z) : ascii_only (int_text n) = true.
Proof.
  unfold int_text, NilZero.string_of_int.
  destruct (Z.to_int n) as [d|d].
  - apply uint_ascii.
  - cbn [ascii_only]. simpl N_of_ascii. simpl N.ltb. apply uint_ascii.
Qed.

Lemma render_char_ascii (c : ascii) :
  (N_of_ascii c <? 128)%N = true ->
  ascii_only (render_char (N_of_ascii c, str1 c)) = true.
Proof.
  intros Hc. unfold render_char, json_named.
  repeat match goal with
         | |- context [if ?b then _ else _] => destruct b
         end;
    cbn [ascii_only str1]; rewrite ?Hc; try reflexivity.
  cbn [append ascii_only]. simpl N_of_ascii. simpl N.ltb. cbn [andb].
  apply hex_ascii.
Qed.

Lemma render_str_ascii (s : string) :
  ascii_only s = true -> ascii_only (render_str s) = true.
Proof.
  intros H. unfold render_str. cbn [ascii_only]. simpl N_of_ascii. simpl N.ltb. cbn [andb].
  rewrite ascii_only_app. cbn [str1 ascii_only]. simpl N_of_ascii. simpl N.ltb.
  rewrite andb_true_r.
  apply ascii_only_flatten. rewrite (chars_ascii s H). clear H0 || idtac.
  revert H. induction s as [|c s IH]; intros H; [reflexivity |].
  cbn [ascii_only] in H. apply andb_true_iff in H. destruct H as [Hc Hs].
  cbn [list_ascii_of_string map forallb].
  rewrite (render_char_ascii c Hc). now apply IH.
Qed.

(** An error body whose message is plain ASCII can be encoded. *)
Lemma error_body_ascii (message : string) :
  ascii_only message = true -> encodable (PDict [("error", PStr message)]) = true.
Proof.
  intros H. unfold encodable. rewrite encode_ascii; [reflexivity |].
  cbn [render map join fst snd].
  rewrite !ascii_only_app. rewrite (render_str_ascii message H). reflexivity.
Qed.

(** What the encoder says when it fails is plain ASCII. *)
Lemma encode_error_ascii (s : string) (e : exn) :
  encode_utf8 s = Raise e ->
  exists text, e = UnicodeEncodeError text /\ ascii_only text = true.
Proof.
  unfold encode_utf8.
  destruct (first_surrogate 0 (codes s)) as [[[start cp] rest]|]; [| discriminate].
  destruct (surrogates_ahead rest) as [|more]; intros H;
    match type of H with
    | Raise (UnicodeEncodeError ?t) = _ => exists t; split; [congruence |]
    end.
  - rewrite !ascii_only_app. cbn [ascii_only]. rewrite !ascii_only_app.
    rewrite hex_ascii, int_text_ascii. reflexivity.
  - rewrite !ascii_only_app. rewrite !int_text_ascii. reflexivity.
Qed.

End Ascii.

Section Responses.

(** [JSONResponse] by whether the body can be encoded. *)
Lemma JSONResponse_encodable (code : Z) (body : value) :
  encodable body = true ->
  JSONResponse code body = Ok {| status_code := code; content := body |}.
Proof.
  unfold encodable, JSONResponse.
  destruct (encode_utf8 (render body)); [reflexivity | discriminate].
Qed.

Lemma JSONResponse_unencodable (code : Z) (body : value) :
  encodable body = false ->
  exists text,
    encode_utf8 (render body) = Raise (UnicodeEncodeError text)
    /\ JSONResponse code body = Raise (UnicodeEncodeError text)
    /\ ascii_only text = true.
Proof.
  unfold encodable, JSONResponse.
  destruct (encode_utf8 (render body)) as [|e] eqn:E; [discriminate | intros _].
  destruct (encode_error_ascii _ _ E) as (text & -> & Hascii).
  exists text. auto.
Qed.

Lemma JSONResponse_cases (code : Z) (body : value) :
  JSONResponse code body = Ok {| status_code := code; content := body |}
  \/ exists text, JSONResponse code body = Raise (UnicodeEncodeError text).
Proof.
  destruct (encodable body) eqn:E.
  - left. now apply JSONResponse_encodable.
  - right. destruct (JSONResponse_unencodable code body E) as (text & _ & H & _). eauto.
Qed.

End Responses.

(* ================================================================== *)
(** ** The outbound call of each operation *)
(* ================================================================== *)

(** C5.  [find_email] makes one outbound call, a GET on the finder
    endpoint.  Its parameters hold [domain] and the credential under
    [api_key]; each of [first_name], [last_name], [company], [full_name] is
    there exactly when the caller passed a value that tests true (for a
    string: a non-empty one; [None] and the empty string are left out),
    and nothing else is.  With a successful reply
    whose body is a JSON object, the operation returns the object's
    ["data"], or the empty mapping when it has none. *)
Theorem C5_find_email_call
    {U : Unicode} (self : HunterAPI.client) (domain : value)
    (first_name last_name company full_name : option value) (w : world) :
  let run := HunterAPI.find_email self domain first_name last_name company full_name w in
  let c := outbound self "email-finder"
             (HunterAPI.find_email_params domain first_name last_name company full_name) in
  calls_made w (snd run) = [c]
  /\ lookup "domain" (call_params c) = Some domain
  /\ lookup "api_key" (call_params c) = Some (PStr (HunterAPI.api_key self))
  /\ lookup "first_name" (call_params c) = supplied first_name
  /\ lookup "last_name" (call_params c) = supplied last_name
  /\ lookup "company" (call_params c) = supplied company
  /\ lookup "full_name" (call_params c) = supplied full_name
  /\ incl (map fst (call_params c))
       ["domain"; "first_name"; "last_name"; "company"; "full_name"; "api_key"]
  /\ (supplied None = None
      /\ supplied (Some PNone) = None
      /\ supplied (Some (PStr EmptyString)) = None
      /\ forall s, s <> EmptyString -> supplied (Some (PStr s)) = Some (PStr s))
  /\ (forall envelope,
        success (PDict envelope) (HunterAPI.session self c) ->
        fst run = Ok (get_default "data" (PDict []) envelope)).
Proof.
  intros run c.
  assert (Hr : run = (answer (HunterAPI.session self c),
                      {| logged := logged w ++ debug_record c
                                     :: error_records (HunterAPI.session self c);
                         sent := sent w ++ [c] |})).
  { unfold run. rewrite find_email_operation. apply operation_run. }
  split; [rewrite Hr; apply calls_made_run |].
  assert (Hparams :
    lookup "domain" (call_params c) = Some domain
    /\ lookup "api_key" (call_params c) = Some (PStr (HunterAPI.api_key self))
    /\ lookup "first_name" (call_params c) = supplied first_name
    /\ lookup "last_name" (call_params c) = supplied last_name
    /\ lookup "company" (call_params c) = supplied company
    /\ lookup "full_name" (call_params c) = supplied full_name
    /\ incl (map fst (call_params c))
         ["domain"; "first_name"; "last_name"; "company"; "full_name"; "api_key"]).
  { unfold c, outbound, HunterAPI.find_email_params, HunterAPI.set_if,
      HunterAPI.or_default, supplied; simpl call_params.
    destruct first_name as [v1|]; [destruct (truthy v1) |];
    (destruct last_name as [v2|]; [destruct (truthy v2) |]);
    (destruct company as [v3|]; [destruct (truthy v3) |]);
    (destruct full_name as [v4|]; [destruct (truthy v4) |]);
    cbn; repeat split; intros k Hk; simpl in Hk; simpl; intuition auto. }
  repeat (split; [apply Hparams |]).
  split.
  { repeat split. intros s Hs. simpl.
    apply String.eqb_neq in Hs. now rewrite Hs. }
  intros envelope Hs. rewrite Hr. simpl.
  rewrite (answer_success _ _ Hs). reflexivity.
Qed.

(* ================================================================== *)
(** ** [POST /tools/call] *)
(* ================================================================== *)

Section CallTool.

Context {U : Unicode}.

Variable self : HunterAPI.client.

(** [call_tool] on a JSON object: the INFO record, the [try] block, and
    the 500 answer for whatever the block raises. *)
Lemma call_tool_run (data : dict) (w : world) :
  Main.call_tool self (Ok (PDict data)) w =
    match Main.dispatch self (get_default "name" PNone data)
            (get_default "arguments" (PDict []) data)
            {| logged := logged w ++
                 [tool_call_record (get_default "name" PNone data)
                    (get_default "arguments" (PDict []) data)];
               sent := sent w |}
    with
    | (Ok a, w') => (Ok a, w')
    | (Raise e, w') =>
        (JSONResponse 500 (PDict [("error", PStr (exn_str e))]),
         {| logged := logged w' ++
              [tool_error_record (get_default "name" PNone data) (exn_str e)];
            sent := sent w' |})
    end.
Proof. reflexivity. Qed.

(** Whatever [call_tool] does to the log, it sends what its [try] block
    sends. *)
Lemma call_tool_sent (data : dict) (w : world) :
  sent (snd (Main.call_tool self (Ok (PDict data)) w))
  = sent (snd (Main.dispatch self (get_default "name" PNone data)
                 (get_default "arguments" (PDict []) data)
                 {| logged := logged w ++
                      [tool_call_record (get_default "name" PNone data)
                         (get_default "arguments" (PDict []) data)];
                    sent := sent w |})).
Proof.
  rewrite call_tool_run. destruct (Main.dispatch _ _ _ _) as [[a|e] w']; reflexivity.
Qed.

(** A name outside the registry: the [try] block builds the 404 response
    and makes no call. *)
Lemma unknown_tool_dispatch (name arguments : value) (w : world) :
  Main.registered name = false ->
  Main.dispatch self name arguments w =
    (JSONResponse 404 (PDict [("error", PStr ("Unknown tool: " ++ str name))]), w).
Proof.
  intros Hreg.
  unfold Main.registered in Hreg. cbn [existsb Main.TOOLS Main.tool_name] in Hreg.
  repeat (apply orb_false_iff in Hreg; destruct Hreg as [? Hreg]).
  unfold Main.dispatch.
  rewrite H, H0, H1. reflexivity.
Qed.

End CallTool.

(** C6.  [domain_search] called without [limit] sends [limit=10].  So
    does [POST /tools/call] for [domain_search] when the arguments have no
    [limit]: it makes one call, on the search endpoint, for the given
    domain and with [limit=10]. *)
Theorem C6_domain_search_default_limit
    {U : Unicode} (self : HunterAPI.client) (w : world) :
  (forall domain type,
     exists c,
       calls_made w (snd (HunterAPI.domain_search self domain None type w)) = [c]
       /\ call_url c = "https://api.hunter.io/v2/domain-search"
       /\ lookup "domain" (call_params c) = Some domain
       /\ lookup "limit" (call_params c) = Some (PInt 10))
  /\ (forall data arguments domain,
        lookup "name" data = Some (PStr "domain_search") ->
        lookup "arguments" data = Some (PDict arguments) ->
        lookup "domain" arguments = Some domain ->
        lookup "limit" arguments = None ->
        exists c,
          calls_made w (snd (Main.call_tool self (Ok (PDict data)) w)) = [c]
          /\ call_url c = "https://api.hunter.io/v2/domain-search"
          /\ lookup "domain" (call_params c) = Some domain
          /\ lookup "limit" (call_params c) = Some (PInt 10)).
Proof.
  assert (Hparams : forall domain limit type,
    lookup "domain"
      (call_params (outbound self "domain-search"
         (HunterAPI.domain_search_params domain limit type))) = Some domain
    /\ lookup "limit"
      (call_params (outbound self "domain-search"
         (HunterAPI.domain_search_params domain limit type)))
       = Some (HunterAPI.or_default (PInt 10) limit)).
  { intros domain limit type.
    unfold outbound, HunterAPI.domain_search_params, HunterAPI.set_if. simpl call_params.
    destruct (truthy _); split; reflexivity. }
  split.
  - intros domain type.
    rewrite domain_search_operation.
    rewrite operation_run. eexists. split; [apply calls_made_run |].
    split; [reflexivity |]. apply Hparams.
  - intros data arguments domain Hname Hargs Hdom Hlim.
    exists (outbound self "domain-search"
              (HunterAPI.domain_search_params domain (Some (PInt 10))
                 (Some match lookup "type" arguments with Some v => v | None => PNone end))).
    split; [| split; [reflexivity | apply Hparams]].
    apply calls_made_sent. rewrite call_tool_sent.
    unfold get_default. rewrite Hname, Hargs.
    unfold Main.dispatch. cbn [eq_str String.eqb Ascii.eqb Bool.eqb].
    unfold bind, lift, method_get, subscript_str, get_default.
    rewrite Hlim, Hdom.
    rewrite domain_search_operation, operation_run.
    destruct (answer _); reflexivity.
Qed.

(** C7, as the code has it.  [call_tool] dispatches on the name.  For a
    body whose name matches no tool of the registry no call goes out; the
    answer is 404 with [{"error": "Unknown tool: <name>"}] when that body
    can be encoded as UTF-8.  When it cannot, because the name holds a
    surrogate, building the 404 response raises inside the [try], and the
    answer is 500 with the message of the encoder.  For [email_verifier]
    with [{"email": "a@b.com"}] exactly one call goes out, a GET on the
    verifier endpoint with [email=a@b.com] and the key; when the upstream
    answers with a JSON object, the response is the single text block
    holding the indented JSON of its ["data"]. *)
Theorem C7_dispatch_by_name {U : Unicode} (self : HunterAPI.client) (w : world) :
  (forall data,
     let name := get_default "name" PNone data in
     let body := PDict [("error", PStr ("Unknown tool: " ++ str name))] in
     let run := Main.call_tool self (Ok (PDict data)) w in
     Main.registered name = false ->
     calls_made w (snd run) = []
     /\ (encodable body = true ->
         fst run = Ok {| status_code := 404; content := body |})
     /\ (encodable body = false ->
         exists text,
           encode_utf8 (render body) = Raise (UnicodeEncodeError text)
           /\ fst run = Ok {| status_code := 500;
                              content := PDict [("error", PStr text)] |}))
  /\ (let run := Main.call_tool self
                   (Ok (tool_call "email_verifier" [("email", PStr "a@b.com")])) w in
      let c := mk_call "GET" "https://api.hunter.io/v2/email-verifier"
                 [("email", PStr "a@b.com"); ("api_key", PStr (HunterAPI.api_key self))] in
      calls_made w (snd run) = [c]
      /\ forall envelope,
           success (PDict envelope) (HunterAPI.session self c) ->
           fst run =
             Ok {| status_code := 200;
                   content :=
                     PDict [("content",
                             PList [PDict [("type", PStr "text");
                                           ("text",
                                            PStr (dumps_indent2
                                                    (get_default "data" (PDict []) envelope)))]])]
                |}).
Proof.
  split.
  - intros data name body run Hreg.
    split.
    { apply calls_made_none. unfold run. rewrite call_tool_sent.
      fold name. now rewrite (unknown_tool_dispatch self name _ _ Hreg). }
    unfold run. rewrite call_tool_run. fold name.
    rewrite (unknown_tool_dispatch self name _ _ Hreg). fold body.
    split; intros Henc.
    + now rewrite (JSONResponse_encodable 404 body Henc).
    + destruct (JSONResponse_unencodable 404 body Henc) as (text & Hraise & -> & Hascii).
      exists text. split; [exact Hraise |].
      cbn [fst exn_str]. apply JSONResponse_encodable. now apply error_body_ascii.
  - intros run c.
    assert (Hrun : exists tail,
      run = (match answer (HunterAPI.session self c) with
             | Ok v => Ok (returned (text_content v))
             | Raise e => JSONResponse 500 (PDict [("error", PStr (exn_str e))])
             end,
             {| logged := logged w ++ tail; sent := sent w ++ [c] |})).
    { unfold run, tool_call. rewrite call_tool_run.
      unfold get_default. cbn [lookup String.eqb Ascii.eqb Bool.eqb].
      unfold Main.dispatch. cbn [eq_str String.eqb Ascii.eqb Bool.eqb].
      unfold bind at 1. unfold lift at 1. cbn [subscript_str lookup String.eqb Ascii.eqb Bool.eqb].
      unfold bind. rewrite verify_email_operation.
      rewrite operation_run.
      change (outbound self "email-verifier" [("email", PStr "a@b.com")]) with c.
      cbn [logged sent].
      destruct (answer (HunterAPI.session self c)); unfold ret; cbn [logged sent];
        eexists; rewrite <- !app_assoc; reflexivity. }
    destruct Hrun as (tail & ->). cbn [fst snd]. split.
    + apply calls_made_sent. reflexivity.
    + intros envelope Hs. rewrite (answer_success _ _ Hs). reflexivity.
Qed.

(** C10.  A body with no ["name"] at all is handled as an unknown tool:
    404 with ["Unknown tool: None"], the same path and the same status as
    for any name outside the registry, and no call goes out. *)
Theorem C10_absent_name
    {U : Unicode} (self : HunterAPI.client) (data : dict) (w : world) :
  lookup "name" data = None ->
  let run := Main.call_tool self (Ok (PDict data)) w in
  fst run = Ok {| status_code := 404;
                  content := PDict [("error", PStr "Unknown tool: None")] |}
  /\ calls_made w (snd run) = [].
Proof.
  intros Hname run.
  assert (Hget : get_default "name" PNone data = PNone).
  { unfold get_default. now rewrite Hname. }
  assert (Hreg : Main.registered (get_default "name" PNone data) = false).
  { now rewrite Hget. }
  split.
  - unfold run. rewrite call_tool_run.
    rewrite (unknown_tool_dispatch self _ _ _ Hreg). rewrite Hget. reflexivity.
  - apply calls_made_none. unfold run. rewrite call_tool_sent.
    now rewrite (unknown_tool_dispatch self _ _ _ Hreg).
Qed.

(* ================================================================== *)
(** ** Error mapping *)
(* ================================================================== *)

Section ErrorMapping.

Context {U : Unicode}.

Variable r : response.
Hypothesis error_status : 400 <= status r.

Lemma within_error :
  exists text,
    HunterAPI.within (Responded r)
    = (Some r, Raise (ClientResponseError (status r) (reason r) text)).
Proof.
  unfold HunterAPI.within, HunterAPI.raise_for_status.
  destruct (400 <=? status r) eqn:E; [| apply Z.leb_gt in E; lia].
  eexists. reflexivity.
Qed.

(** Not [application/json]: the reason phrase. *)
Lemma answer_other_content_type :
  content_type r <> "application/json" ->
  answer (Responded r) = Raise (ValueError ("Hunter API error: " ++ reason r)).
Proof.
  intros Hct. unfold answer. destruct within_error as (text & ->).
  apply String.eqb_neq in Hct.
  unfold HunterAPI.handlers, HunterAPI.on_response_error, bind, log, lift, ret, raise.
  cbn [fst snd]. rewrite Hct. reflexivity.
Qed.

(** [application/json]: the handler reads the body, and what the read
    raises leaves the operation; with what it returns, the handler goes
    on to its last line. *)
Lemma answer_json_raises (e : exn) :
  content_type r = "application/json" ->
  HunterAPI.json_released r = Raise e ->
  answer (Responded r) = Raise e.
Proof.
  intros Hct Hjs. unfold answer. destruct within_error as (text & ->).
  apply String.eqb_eq in Hct.
  unfold HunterAPI.handlers, HunterAPI.on_response_error, bind, log, lift, ret, raise.
  cbn [fst snd]. rewrite Hct, Hjs. reflexivity.
Qed.

Lemma answer_json_returns (error_data : value) :
  content_type r = "application/json" ->
  HunterAPI.json_released r = Ok error_data ->
  answer (Responded r) =
    match fst (HunterAPI.api_error error_data (reason r) initial) with
    | Ok v => method_get v "data" (PDict [])
    | Raise e => Raise e
    end.
Proof.
  intros Hct Hjs. unfold answer. destruct within_error as (text & ->).
  apply String.eqb_eq in Hct.
  unfold HunterAPI.handlers, HunterAPI.on_response_error, bind, log, lift, ret, raise.
  cbn [fst snd]. rewrite Hct, Hjs.
  rewrite api_error_frame. reflexivity.
Qed.

(** The body of an error reply was not read when the response is
    released: reading it in the handler fails. *)
Lemma released_unread :
  empty_payload r = false ->
  HunterAPI.json_released r = Raise (ClientError "Connection closed").
Proof.
  intros Hbody. unfold HunterAPI.json_released. rewrite Hbody.
  destruct (400 <=? status r) eqn:E; [reflexivity | apply Z.leb_gt in E; lia].
Qed.

End ErrorMapping.

(** The last line of the first handler on an empty ["errors"] array. *)
Lemma api_error_empty_errors {U : Unicode} (body : dict) (e_message : string) (w : world) :
  lookup "errors" body = Some (PList []) ->
  HunterAPI.api_error (PDict body) e_message w
  = (Raise (IndexError "list index out of range"), w).
Proof.
  intros Herr. unfold HunterAPI.api_error, bind, lift, method_get, get_default.
  rewrite Herr. reflexivity.
Qed.

(** The [try] block either stops before any call, or performs one
    operation and wraps its answer; which of the two, and with what, is
    decided by the request alone. *)
Lemma dispatch_cases {U : Unicode} (name arguments : value) :
  (exists out,
     (forall self w, Main.dispatch self name arguments w = (out, w))
     /\ (Main.registered name = true -> exists e, out = Raise e))
  \/ (exists o, Main.registered name = true
        /\ forall self w,
             Main.dispatch self name arguments w =
               (let '(res, w') := perform self o w in
                (match res with
                 | Ok v => Ok (returned (text_content v))
                 | Raise e => Raise e
                 end, w'))).
Proof.
  unfold Main.dispatch, Main.registered.
  cbn [existsb Main.TOOLS Main.tool_name].
  destruct (eq_str name "email_finder") eqn:E1; cbn [orb].
  { unfold call_find_email.
    destruct arguments as [| | | | | |d];
      try (left; eexists; split; [reflexivity | eauto]).
    unfold bind, lift. destruct (check_keywords d); cbn [fst snd];
      [| left; eexists; split; [reflexivity | eauto]].
    destruct (lookup "domain" d) as [domain|];
      [| left; eexists; split; [reflexivity | eauto]].
    right. exists (FindEmail domain (lookup "first_name" d) (lookup "last_name" d)
                     (lookup "company" d) (lookup "full_name" d)).
    split; [reflexivity |]. intros self w. cbn [perform].
    destruct (HunterAPI.find_email _ _ _ _ _ _ w) as [[v|e] w']; reflexivity. }
  destruct (eq_str name "email_verifier") eqn:E2; cbn [orb].
  { unfold bind, lift.
    destruct (subscript_str arguments "email") as [email|e];
      [| left; eexists; split; [reflexivity | eauto]].
    right. exists (VerifyEmail email). split; [reflexivity |]. intros self w. cbn [perform].
    destruct (HunterAPI.verify_email _ _ w) as [[v|e] w']; reflexivity. }
  destruct (eq_str name "domain_search") eqn:E3; cbn [orb].
  { unfold bind, lift.
    destruct (method_get arguments "limit" (PInt 10)) as [limit|e];
      [| left; eexists; split; [reflexivity | eauto]].
    destruct (method_get arguments "type" PNone) as [type|e];
      [| left; eexists; split; [reflexivity | eauto]].
    destruct (subscript_str arguments "domain") as [domain|e];
      [| left; eexists; split; [reflexivity | eauto]].
    right. exists (DomainSearch domain (Some limit) (Some type)).
    split; [reflexivity |]. intros self w. cbn [perform].
    destruct (HunterAPI.domain_search _ _ _ _ w) as [[v|e] w']; reflexivity. }
  left. eexists. split; [reflexivity | discriminate].
Qed.

(** C3, at the failing input.  When the upstream answers an operation with
    a status of 400 or more and a content type other than
    [application/json], the operation raises [ValueError] with
    ["Hunter API error: "] and the reason phrase.  When the content type is
    [application/json] and the reply has a body, the handler asks the
    released response for the body: the operation raises the library's
    ["Connection closed"], whatever the body holds, and its ["errors"] are
    never looked at.  So a 401 with the body
    [{"errors":[{"details":"Invalid API key"}]}] makes [POST /tools/call],
    whenever the request got as far as the upstream, answer 500 with the
    error ["Connection closed"], which does not end in
    ["Invalid API key"]. *)
Theorem C3_error_body_unread {U : Unicode} (self : HunterAPI.client) (w : world) :
  (forall (o : op) (r : response),
     HunterAPI.session self (op_call self o) = Responded r ->
     400 <= status r ->
     (content_type r <> "application/json" ->
      fst (perform self o w) = Raise (ValueError ("Hunter API error: " ++ reason r)))
     /\ (content_type r = "application/json" ->
         empty_payload r = false ->
         fst (perform self o w) = Raise (ClientError "Connection closed")))
  /\ (forall (data : dict) (r : response),
        (forall c, HunterAPI.session self c = Responded r) ->
        status r = 401 ->
        content_type r = "application/json" ->
        empty_payload r = false ->
        json r = Ok invalid_key_body ->
        let run := Main.call_tool self (Ok (PDict data)) w in
        calls_made w (snd run) <> [] ->
        fst run = Ok {| status_code := 500;
                        content := PDict [("error", PStr "Connection closed")] |}
        /\ ends_with "Invalid API key" "Connection closed" = false).
Proof.
  split.
  - intros o r Hrep Hst.
    rewrite perform_run, Hrep. cbn [fst]. split.
    + intros Hct. now apply answer_other_content_type.
    + intros Hct Hbody. apply (answer_json_raises r Hst _ Hct).
      now apply released_unread.
  - intros data r Hall Hst Hct Hbody Hjs run Hcalls.
    split; [| reflexivity].
    assert (H400 : 400 <= status r) by lia.
    unfold run in *. rewrite call_tool_run in *.
    match goal with
    | |- context [Main.dispatch self ?n ?a ?w0] =>
        destruct (dispatch_cases n a) as [(out & Hd & _) | (o & _ & Hd)];
        rewrite (Hd self w0) in *
    end.
    + exfalso. apply Hcalls. apply calls_made_none.
      destruct out; reflexivity.
    + rewrite perform_run. rewrite !Hall.
      rewrite (answer_json_raises r H400 _ Hct (released_unread r H400 Hbody)).
      reflexivity.
Qed.

(** Where the handlers do convert: a [ClientError] of the transport
    becomes the [ValueError] with its text; any exception of another class
    passes through as it is. *)
Lemma transport_failure_uniform
    {U : Unicode} (self : HunterAPI.client) (o : op) (w : world) (text : string) :
  HunterAPI.session self (op_call self o) = Failed (ClientError text) ->
  fst (perform self o w) = Raise (ValueError ("Request error: " ++ text)).
Proof. intros Hrep. rewrite perform_run, Hrep. reflexivity. Qed.

Lemma other_failure_passes
    {U : Unicode} (self : HunterAPI.client) (o : op) (w : world) (cls text : string) :
  HunterAPI.session self (op_call self o) = Failed (OtherError cls text) ->
  fst (perform self o w) = Raise (OtherError cls text).
Proof. intros Hrep. rewrite perform_run, Hrep. reflexivity. Qed.

(** C4, at the failing input.  For an error status with the content type
    [application/json] the handler awaits [response.json()], and nothing
    catches what happens inside the handler.  When the reply has a body,
    the read of the released response raises the library's
    [ClientConnectionError], and that exception of the transport leaves the
    operation as it is.  In general whatever the read raises leaves the
    operation; and when it returns a JSON object whose ["errors"] is an
    empty array, the handler indexes the empty list and the operation
    raises [IndexError].  None of these is the [ValueError] of the
    handlers. *)
Theorem C4_handler_failure_escapes
    {U : Unicode} (self : HunterAPI.client) (o : op) (w : world) (r : response) :
  HunterAPI.session self (op_call self o) = Responded r ->
  400 <= status r ->
  content_type r = "application/json" ->
  (empty_payload r = false ->
   fst (perform self o w) = Raise (ClientError "Connection closed"))
  /\ (forall body,
        HunterAPI.json_released r = Ok (PDict body) ->
        lookup "errors" body = Some (PList []) ->
        fst (perform self o w) = Raise (IndexError "list index out of range"))
  /\ (forall e, HunterAPI.json_released r = Raise e -> fst (perform self o w) = Raise e).
Proof.
  intros Hrep Hst Hct.
  rewrite perform_run, Hrep. cbn [fst].
  split; [| split].
  - intros Hbody. apply (answer_json_raises r Hst _ Hct). now apply released_unread.
  - intros body Hjs Herr.
    rewrite (answer_json_returns r Hst _ Hct Hjs).
    now rewrite (api_error_empty_errors body (reason r) initial Herr).
  - intros e Hjs. now apply answer_json_raises.
Qed.

(* ================================================================== *)
(** ** The endpoint boundary *)
(* ================================================================== *)

(** C9, at the failing inputs.  In [main.py] the body is read and
    [data.get] is called before the [try]: the exception of a body that
    does not parse, or of a body that is not a JSON object, leaves
    [call_tool] as it is, with nothing logged.  The [call_tool] of
    [simple_mcp.py] has both inside its [try] and answers 500 with the
    error envelope, when the envelope can be encoded.  A body that is a
    JSON object is answered by [main.py], unless the error envelope for it
    cannot be encoded: then the exception of the encoder leaves
    [call_tool]. *)
Theorem C9_body_failures_escape {U : Unicode} (self : HunterAPI.client) (w : world) :
  (forall e, Main.call_tool self (Raise e) w = (Raise e, w))
  /\ Main.call_tool self (Ok (PList [])) w
     = (Raise (AttributeError "'list' object has no attribute 'get'"), w)
  /\ (forall e,
        let body := PDict [("error", PStr (exn_str e))] in
        (encodable body = true ->
         fst (SimpleMcp.call_tool self (Raise e) w)
         = Ok {| status_code := 500; content := body |})
        /\ (encodable body = false ->
            exists text,
              fst (SimpleMcp.call_tool self (Raise e) w) = Raise (UnicodeEncodeError text)))
  /\ fst (SimpleMcp.call_tool self (Ok (PList [])) w)
     = Ok {| status_code := 500;
             content := PDict [("error", PStr "'list' object has no attribute 'get'")] |}
  /\ (forall data,
        (exists answered, fst (Main.call_tool self (Ok (PDict data)) w) = Ok answered)
        \/ (exists message text,
              encodable (PDict [("error", PStr message)]) = false
              /\ fst (Main.call_tool self (Ok (PDict data)) w)
                 = Raise (UnicodeEncodeError text))).
Proof.
  split; [reflexivity |].
  split; [reflexivity |].
  split.
  { intros e body.
    assert (Hrun : fst (SimpleMcp.call_tool self (Raise e) w) = JSONResponse 500 body)
      by reflexivity.
    rewrite Hrun. split; intros Henc.
    - now apply JSONResponse_encodable.
    - destruct (JSONResponse_unencodable 500 body Henc) as (text & _ & H & _). eauto. }
  split; [reflexivity |].
  intros data. rewrite call_tool_run.
  destruct (Main.dispatch _ _ _ _) as [[a|e] w']; [left; eexists; reflexivity |].
  cbn [fst].
  destruct (encodable (PDict [("error", PStr (exn_str e))])) eqn:Henc.
  - left. rewrite (JSONResponse_encodable _ _ Henc). eauto.
  - right. destruct (JSONResponse_unencodable 500 _ Henc) as (text & _ & H & _).
    exists (exn_str e), text. auto.
Qed.


(* ================================================================== *)
(** ** The credential *)
(* ================================================================== *)

Section Text.

Context {U : Unicode}.

Lemma prefix_append (a b : string) : String.prefix a (a ++ b) = true.
Proof.
  induction a as [|c a IH]; simpl; [destruct b; reflexivity |].
  destruct (ascii_dec c c); [exact IH | congruence].
Qed.

Lemma occurs_here (needle rest : string) : occurs needle (needle ++ rest) = true.
Proof.
  destruct needle; simpl.
  - destruct rest; reflexivity.
  - destruct (ascii_dec a a); [| congruence].
    now rewrite prefix_append.
Qed.

Lemma occurs_skip (needle before text : string) :
  occurs needle text = true -> occurs needle (before ++ text) = true.
Proof.
  intros H. induction before as [|c before IH]; simpl; [exact H |].
  rewrite IH. apply orb_true_r.
Qed.

Lemma occurs_inside (needle before rest : string) :
  occurs needle (before ++ needle ++ rest) = true.
Proof. apply occurs_skip, occurs_here. Qed.

Lemma append_assoc (a b c : string) : (a ++ b) ++ c = a ++ (b ++ c).
Proof. induction a; simpl; congruence. Qed.

Lemma append_empty_r (a : string) : a ++ EmptyString = a.
Proof. induction a; simpl; congruence. Qed.

Lemma join_in (sep x : string) (parts : list string) :
  In x parts -> exists before rest, join sep parts = before ++ x ++ rest.
Proof.
  induction parts as [|p parts IH]; [intros [] |].
  intros [-> | Hin].
  - destruct parts as [|q parts].
    + exists EmptyString, EmptyString. simpl. now rewrite append_empty_r.
    + exists EmptyString, (sep ++ join sep (q :: parts)). reflexivity.
  - destruct (IH Hin) as (before & rest & Heq).
    destruct parts as [|q parts]; [destruct Hin |].
    exists (p ++ sep ++ before), rest.
    change (join sep (p :: q :: parts)) with (p ++ sep ++ join sep (q :: parts)).
    rewrite Heq. now rewrite !append_assoc.
Qed.

Lemma In_setitem (k : string) (v : value) (d : dict) : In (k, v) (setitem k v d).
Proof.
  induction d as [|[k' v'] d IH]; simpl; [auto |].
  destruct (String.eqb k k') eqn:E; simpl; [| auto].
  apply String.eqb_eq in E. subst. auto.
Qed.

(** The text of a [dict] shows each of its entries. *)
Lemma repr_dict_entry (k : string) (v : value) (d : dict) :
  In (k, v) d -> occurs (repr_str k ++ ": " ++ repr v) (repr (PDict d)) = true.
Proof.
  intros Hin.
  assert (Hpart : In (repr_str k ++ ": " ++ repr v)
                    (map (fun kv => repr_str (fst kv) ++ ": " ++ repr (snd kv)) d)).
  { apply (in_map (fun kv => repr_str (fst kv) ++ ": " ++ repr (snd kv)) d (k, v) Hin). }
  destruct (join_in ", " _ _ Hpart) as (before & rest & Heq).
  change (repr (PDict d)) with
    ("{" ++ join ", " (map (fun kv => repr_str (fst kv) ++ ": " ++ repr (snd kv)) d) ++ "}").
  rewrite Heq.
  set (entry := repr_str k ++ ": " ++ repr v).
  rewrite !append_assoc.
  apply (occurs_skip _ "{"). apply occurs_inside.
Qed.

End Text.

Section Credential.

Context {U : Unicode}.

Variable self : HunterAPI.client.

Lemma op_call_outbound (o : op) :
  exists endpoint params, forall s, op_call s o = outbound s endpoint params.
Proof. destruct o; do 2 eexists; intros s; reflexivity. Qed.

Lemma alike_answers_op (self' : HunterAPI.client) (o : op) :
  alike_answers self self' ->
  reply_alike (HunterAPI.session self (op_call self o))
    (HunterAPI.session self' (op_call self' o)).
Proof.
  intros Hsame. destruct (op_call_outbound o) as (ep & p & Hcall).
  rewrite !Hcall. apply Hsame.
Qed.

(** The first handler reads of the response its content type and, for
    [application/json], its body. *)
Lemma on_response_error_alike (r r' : response) (st : Z) (msg : string) (w : world) :
  content_type r = content_type r' ->
  (String.eqb (content_type r) "application/json" = true ->
   HunterAPI.json_released r = HunterAPI.json_released r') ->
  HunterAPI.on_response_error (Some r) st msg w
  = HunterAPI.on_response_error (Some r') st msg w.
Proof.
  intros Hct Hjs. unfold HunterAPI.on_response_error. rewrite <- Hct.
  destruct (String.eqb (content_type r) "application/json"); [| reflexivity].
  now rewrite Hjs.
Qed.

(** Replies that say the same are handled the same. *)
Lemma handlers_alike (rep rep' : reply) :
  reply_alike rep rep' ->
  HunterAPI.handlers (HunterAPI.within rep) initial
  = HunterAPI.handlers (HunterAPI.within rep') initial.
Proof.
  destruct rep as [r|e], rep' as [r'|e']; cbn [reply_alike]; try contradiction.
  - intros (Hs & Hr & Hc & He & Hj).
    unfold HunterAPI.within, HunterAPI.raise_for_status. rewrite <- Hs, <- Hr.
    destruct (400 <=? status r) eqn:E.
    + cbn [HunterAPI.handlers]. apply on_response_error_alike; [exact Hc |].
      intros Hjson. unfold HunterAPI.json_released. rewrite <- Hs, <- He, E.
      destruct (empty_payload r); [| reflexivity]. cbn [negb andb].
      rewrite Hjson in Hj.
      destruct (json r), (json r'); try contradiction; congruence.
    + destruct (json r) as [v|e] eqn:Ej, (json r') as [v'|e'] eqn:Ej';
        try contradiction; [now subst |].
      assert (Hreleased : HunterAPI.json_released r = Raise e).
      { unfold HunterAPI.json_released. now rewrite E, Ej. }
      assert (Hreleased' : HunterAPI.json_released r' = Raise e').
      { unfold HunterAPI.json_released. now rewrite <- Hs, E, Ej'. }
      destruct (String.eqb (content_type r) "application/json") eqn:Hjson.
      * subst e'. destruct e; try reflexivity.
        cbn [HunterAPI.handlers]. apply on_response_error_alike; [exact Hc |].
        intros _. now rewrite Hreleased, Hreleased'.
      * destruct e, e'; cbn [exn_alike] in Hj; try discriminate;
          try (injection Hj as <-; reflexivity);
          try (injection Hj as <- <-; reflexivity).
        destruct Hj as [<- <-].
        cbn [HunterAPI.handlers]. apply on_response_error_alike; [exact Hc |].
        rewrite Hjson. discriminate.
  - intros Hj.
    destruct e, e'; cbn [exn_alike] in Hj; try discriminate;
      try (injection Hj as <-; reflexivity);
      try (injection Hj as <- <-; reflexivity).
    destruct Hj as [<- <-]. reflexivity.
Qed.

Lemma answer_alike (rep rep' : reply) :
  reply_alike rep rep' ->
  answer rep = answer rep' /\ error_records rep = error_records rep'.
Proof.
  intros H. unfold answer, error_records. now rewrite (handlers_alike _ _ H).
Qed.

Lemma debug_record_shows_key (o : op) :
  occurs ("'api_key': " ++ repr_str (HunterAPI.api_key self))
    (log_message (debug_record (op_call self o))) = true.
Proof.
  destruct (op_call_outbound o) as (ep & p & Hcall). rewrite Hcall.
  unfold debug_record, log_message.
  do 5 apply occurs_skip.
  apply (repr_dict_entry "api_key" (PStr (HunterAPI.api_key self))).
  apply In_setitem.
Qed.

Lemma beside_debug_app (a b : list log_record) :
  beside_debug (a ++ b) = (beside_debug a ++ beside_debug b)%list.
Proof. apply filter_app. Qed.

Lemma beside_debug_record (c : call) (rest : list log_record) :
  beside_debug (debug_record c :: rest) = beside_debug rest.
Proof. reflexivity. Qed.

End Credential.

(** C1, as the code has it.  Every operation of the client makes one
    outbound call and that call carries the credential as [api_key].  The
    first record the operation logs is the DEBUG record of [_request],
    whose text prints the parameters of the call, the credential among
    them.  What [POST /tools/call] answers, and what is logged apart from
    DEBUG records, is decided by the request and by what the upstream's
    replies say: a client with another key whose upstream answers alike,
    whatever the addresses and the texts of the library's errors in the
    replies show, gives the same response and the same other records. *)
Theorem C1_credential_flow {U : Unicode} (self : HunterAPI.client) (w : world) :
  (forall o : op,
     let w' := snd (perform self o w) in
     let c := op_call self o in
     calls_made w w' = [c]
     /\ lookup "api_key" (call_params c) = Some (PStr (HunterAPI.api_key self))
     /\ records_made w w' = debug_record c :: error_records (HunterAPI.session self c)
     /\ occurs ("'api_key': " ++ repr_str (HunterAPI.api_key self))
          (log_message (debug_record c)) = true)
  /\ (forall (self' : HunterAPI.client) (body : result value),
        alike_answers self self' ->
        fst (Main.call_tool self body w) = fst (Main.call_tool self' body w)
        /\ beside_debug (logged (snd (Main.call_tool self body w)))
           = beside_debug (logged (snd (Main.call_tool self' body w)))).
Proof.
  split.
  - intros o w' c. unfold w', c. rewrite perform_run. cbn [snd].
    split; [apply calls_made_sent; reflexivity |].
    split.
    { destruct (op_call_outbound o) as (ep & p & Hcall). rewrite Hcall.
      apply lookup_setitem_same. }
    split; [unfold records_made; cbn [logged]; apply skipn_app_exact |].
    apply debug_record_shows_key.
  - intros self' body Hsame.
    destruct body as [data | e]; [| split; reflexivity].
    destruct data as [| | | | | |data]; try (split; reflexivity).
    rewrite !call_tool_run.
    match goal with
    | |- context [Main.dispatch self ?n ?a ?w0] =>
        destruct (dispatch_cases n a) as [(out & Hd & _) | (o & _ & Hd)];
        rewrite (Hd self w0), (Hd self' w0)
    end.
    + destruct out; split; reflexivity.
    + rewrite !perform_run.
      destruct (answer_alike _ _ (alike_answers_op self self' o Hsame)) as [<- <-].
      destruct (answer (HunterAPI.session self (op_call self o))); cbn [fst snd logged];
        (split; [reflexivity |]);
        rewrite ?beside_debug_app, !beside_debug_record; reflexivity.
Qed.

(* ================================================================== *)
(** ** The SSE session *)
(* ================================================================== *)

Section Sse.

Context {U : Unicode}.

Import Main.

Lemma run_app (p : point) (a b : list signal) :
  run p (a ++ b) =
    (let '(t1, q) := run p a in
     let '(t2, q') := run q b in
     ((t1 ++ t2)%list, q')).
Proof.
  revert p. induction a as [|s a IH]; intros p; simpl.
  - destruct (run p b); reflexivity.
  - destruct (event_generator p s) as [[logs out] p'].
    rewrite IH. destruct (run p' a) as [t1 q]. destruct (run q b). reflexivity.
Qed.

(** The keep-alive loop, from either of its two suspension points. *)
Lemma run_keep_alive (nows : list string) :
  forall count,
    outcomes (fst (run (SleepPing count) (map Resume nows))) = keep_alive true nows
    /\ outcomes (fst (run (AtPing count) (map Resume nows))) = keep_alive false nows.
Proof.
  induction nows as [|now nows IH]; intros count; [split; reflexivity |].
  split; cbn [map run event_generator keep_alive negb].
  - destruct (IH (count + 1)) as [_ H].
    destruct (run (AtPing (count + 1)) (map Resume nows)) as [t q].
    cbn [fst outcomes map snd] in *. now rewrite H.
  - destruct (IH count) as [H _].
    destruct (run (SleepPing count) (map Resume nows)) as [t q].
    cbn [fst outcomes map snd] in *. now rewrite H.
Qed.

Lemma run_resumes (nows : list string) :
  outcomes (fst (run NotStarted (map Resume nows))) = session_outcomes nows.
Proof.
  unfold session_outcomes.
  do 6 (destruct nows as [|? nows]; [reflexivity |]).
  destruct nows as [|now nows]; [reflexivity |].
  destruct (run_keep_alive nows 0) as [H _].
  cbn [map run event_generator length firstn skipn handshake app keep_alive negb].
  destruct (run (SleepPing 0) (map Resume nows)) as [t q].
  cbn [fst outcomes map snd] in *. now rewrite H.
Qed.

Lemma resume_running (p : point) (now : string) :
  p <> Finished -> running (snd (event_generator p (Resume now))) = true.
Proof. destruct p; simpl; congruence. Qed.

Lemma resumes_running (nows : list string) (p : point) :
  running p = true -> running (snd (run p (map Resume nows))) = true.
Proof.
  revert p. induction nows as [|now nows IH]; intros p Hp; simpl; [exact Hp |].
  assert (Hnext : running (snd (event_generator p (Resume now))) = true).
  { apply resume_running. destruct p; simpl in Hp; congruence. }
  destruct (event_generator p (Resume now)) as [[logs out] p']. simpl in Hnext.
  specialize (IH p' Hnext). destruct (run p' (map Resume nows)). exact IH.
Qed.

Lemma started_running (nows : list string) :
  nows <> [] -> running (snd (run NotStarted (map Resume nows))) = true.
Proof.
  destruct nows as [|now nows]; [congruence | intros _].
  cbn [map run event_generator].
  pose proof (resumes_running nows AtConnected eq_refl) as H.
  destruct (run AtConnected (map Resume nows)). exact H.
Qed.

Lemma run_finished (nows : list string) :
  run Finished (map Resume nows)
  = (repeat ([], Stopped) (length nows), Finished).
Proof.
  induction nows as [|now nows IH]; simpl; [reflexivity |]. now rewrite IH.
Qed.

(** Resuming never writes an ERROR record. *)
Lemma resumes_log (nows : list string) (p : point) :
  Forall (fun r => log_level r <> ERROR) (records (fst (run p (map Resume nows)))).
Proof.
  revert p. induction nows as [|now nows IH]; intros p; simpl; [constructor |].
  assert (Hstep : Forall (fun r => log_level r <> ERROR)
                    (fst (fst (event_generator p (Resume now))))).
  { destruct p; simpl; repeat constructor; simpl; congruence. }
  destruct (event_generator p (Resume now)) as [[logs out] p']. simpl in Hstep.
  specialize (IH p'). destruct (run p' (map Resume nows)) as [t q]. simpl in *.
  unfold records in *. simpl. apply Forall_app. split; assumption.
Qed.

Lemma records_app (a b : list (list log_record * outcome)) :
  records (a ++ b) = (records a ++ records b)%list.
Proof. unfold records. now rewrite map_app, concat_app. Qed.

Lemma outcomes_app (a b : list (list log_record * outcome)) :
  outcomes (a ++ b) = (outcomes a ++ outcomes b)%list.
Proof. apply map_app. Qed.

Lemma outcomes_repeat_stopped (n : nat) :
  outcomes (repeat ([], Stopped) n) = repeat Stopped n.
Proof. induction n; simpl; congruence. Qed.

Lemma records_repeat_stopped (n : nat) :
  records (repeat ([], Stopped) n) = [].
Proof. induction n; simpl; auto. Qed.

Lemma events_app (a b : list outcome) :
  events (a ++ b) = (events a ++ events b)%list.
Proof.
  induction a as [|[ev|ms| |t] a IH]; simpl; congruence.
Qed.

(** An exception thrown into a running generator meets the handlers. *)
Lemma throw_running (p : point) (t : thrown) :
  running p = true -> event_generator p (Throw t) = handle t.
Proof. destruct p; simpl; congruence. Qed.

(** A session that ends: resumed over [nows], then [t] is thrown in, then
    whatever resumptions follow. *)
Lemma run_ended (nows later : list string) (t : thrown) :
  nows <> [] ->
  exists trace,
    run NotStarted (map Resume nows ++ Throw t :: map Resume later)
    = ((trace ++ (fst (fst (handle t)), snd (fst (handle t)))
               :: repeat ([], Stopped) (length later))%list, Finished)
    /\ outcomes trace = session_outcomes nows
    /\ Forall (fun r => log_level r <> ERROR) (records trace).
Proof.
  intros Hne. rewrite run_app.
  pose proof (run_resumes nows) as Hout.
  pose proof (resumes_log nows NotStarted) as Hlog.
  pose proof (started_running nows Hne) as Hrun.
  destruct (run NotStarted (map Resume nows)) as [trace p]. simpl in Hout, Hlog, Hrun.
  exists trace. split; [| split; assumption].
  cbn [run]. rewrite (throw_running p t Hrun).
  destruct t; cbn [handle fst snd]; rewrite run_finished; reflexivity.
Qed.

End Sse.

(** C8.  An SSE session yields one [connected] event, one
    [capabilities] event and one [initialization_complete] event, in that
    order, each with its data and each followed by a sleep of 0.1 seconds,
    and from then on alternates a sleep of 10 seconds with a [ping] event
    that carries the clock reading.  Once the session is cancelled, or its
    generator closed, nothing more is yielded: a cancellation is caught
    and the generator returns, a close leaves it as the [GeneratorExit] it
    was given; in both cases the generator is finished and no ERROR record
    is written. *)
Theorem C8_sse_session {U : Unicode} (nows later : list string) :
  Main.outcomes (fst (Main.run Main.NotStarted (map Main.Resume nows)))
    = session_outcomes nows
  /\ ((6 <= length nows)%nat ->
      Main.events (session_outcomes nows)
      = ([Main.mk_event "connected"
            ("{" ++ quoted "server" ++ ": " ++ quoted "hunter-mcp" ++ ", "
                 ++ quoted "version" ++ ": " ++ quoted "1.0.0" ++ "}");
          Main.mk_event "capabilities"
            ("{" ++ quoted "tools" ++ ": true, " ++ quoted "resources" ++ ": true, "
                 ++ quoted "logging" ++ ": true}");
          Main.mk_event "initialization_complete" "{}"]
           ++ Main.events (keep_alive false (skipn 6 nows)))%list)
  /\ Forall (fun ev => exists now,
               ev = Main.mk_event "ping" ("{" ++ quoted "timestamp" ++ ": " ++ now ++ "}"))
       (Main.events (keep_alive false nows))
  /\ Main.ping_interval = 10 * 1000
  /\ (nows <> [] ->
      forall t, t = Main.CancelledError \/ t = Main.GeneratorExit ->
      let ended := Main.run Main.NotStarted
                     (map Main.Resume nows ++ Main.Throw t :: map Main.Resume later) in
      snd ended = Main.Finished
      /\ Main.outcomes (fst ended)
         = (session_outcomes nows
              ++ (match t with
                  | Main.CancelledError => Main.Stopped
                  | _ => Main.Propagated t
                  end)
              :: repeat Main.Stopped (length later))%list
      /\ Forall (fun r => log_level r <> ERROR) (Main.records (fst ended))).
Proof.
  split; [apply run_resumes |].
  split.
  { intros Hlen. unfold session_outcomes.
    rewrite firstn_all2 by (simpl; lia).
    rewrite events_app. reflexivity. }
  split.
  { assert (H : forall slept,
      Forall (fun ev => exists now,
                ev = Main.mk_event "ping" ("{" ++ quoted "timestamp" ++ ": " ++ now ++ "}"))
        (Main.events (keep_alive slept nows))).
    { induction nows as [|now rest IH]; intros slept; [constructor |].
      cbn [keep_alive].
      destruct slept; cbn [Main.events negb]; [constructor; [now exists now |] |]; apply IH. }
    apply H. }
  split; [reflexivity |].
  intros Hne t Ht ended.
  destruct (run_ended nows later t Hne) as (trace & Hrun & Hout & Hlog).
  unfold ended. rewrite Hrun. cbn [fst snd].
  split; [reflexivity |].
  split.
  - rewrite outcomes_app, Hout. cbn [Main.outcomes map snd].
    fold (Main.outcomes (repeat ([], Main.Stopped) (length later))).
    rewrite outcomes_repeat_stopped.
    destruct Ht as [-> | ->]; reflexivity.
  - rewrite records_app. apply Forall_app. split; [exact Hlog |].
    unfold Main.records. cbn [map concat fst].
    fold (Main.records (repeat ([], Main.Stopped) (length later))).
    rewrite records_repeat_stopped, app_nil_r.
    destruct Ht as [-> | ->]; simpl; repeat constructor; simpl; congruence.
Qed.

(* ================================================================== *)
(** ** More on the client *)
(* ================================================================== *)

Section Client.

Context {U : Unicode}.

Variable self : HunterAPI.client.

(** [_request] with or without parameters. *)
Lemma request_run_any (method endpoint : string) (params : option dict) (w : world) :
  let p := match params with None => empty_dict | Some p => p end in
  let c := mk_call method ("https://api.hunter.io/v2/" ++ endpoint)
             (setitem "api_key" (PStr (HunterAPI.api_key self)) p) in
  HunterAPI._request self method endpoint params w =
    (fst (HunterAPI.handlers (HunterAPI.within (HunterAPI.session self c)) initial),
     {| logged := logged w ++ debug_record c :: error_records (HunterAPI.session self c);
        sent := sent w ++ [c] |}).
Proof.
  intros p c.
  assert (Hrun : HunterAPI._request self method endpoint params w =
            HunterAPI.handlers (HunterAPI.within (HunterAPI.session self c))
              {| logged := logged w ++ [debug_record c]; sent := sent w ++ [c] |})
    by (destruct params; reflexivity).
  rewrite Hrun, handlers_frame. unfold error_records. cbn [logged sent].
  now rewrite <- app_assoc.
Qed.

(** The handlers write at most one record, an ERROR one of the client's
    logger, and none when they return. *)
Lemma error_records_shape (rep : reply) :
  (length (error_records rep) <= 1)%nat
  /\ Forall (fun r => log_level r = ERROR /\ logger_name r = "hunter-api")
       (error_records rep)
  /\ (forall v, fst (HunterAPI.handlers (HunterAPI.within rep) initial) = Ok v ->
      error_records rep = []).
Proof.
  unfold error_records.
  destruct (HunterAPI.within rep) as [bound [v | e]]; [cbn; repeat split; auto |].
  destruct e; try (cbn; repeat split; auto; discriminate).
  cbn [HunterAPI.handlers].
  unfold HunterAPI.on_response_error, bind, log, raise, lift, ret.
  cbn [logged sent initial app].
  destruct bound as [r|]; [| cbn; repeat split; auto; discriminate].
  destruct (String.eqb (content_type r) "application/json");
    [destruct (HunterAPI.json_released r);
       [| cbn; repeat split; auto; discriminate] |];
    rewrite api_error_frame;
    (cbn [fst snd logged];
     split; [cbn; lia | split; [repeat constructor |]];
     unfold HunterAPI.api_error, bind, lift, raise;
     repeat case_result; discriminate).
Qed.

End Client.

(** X1.  Whatever the reply, [_request] makes one call, with the given
    method on the endpoint under the base address.  The call carries the
    client's key under [api_key], also when the caller's parameters had an
    [api_key] of their own, and every other parameter as the caller gave
    it; without parameters the key is all it carries. *)
Theorem X1_request_parameters
    {U : Unicode} (self : HunterAPI.client) (method endpoint : string)
    (params : option dict) (w : world) :
  let p := match params with None => empty_dict | Some p => p end in
  exists c,
    calls_made w (snd (HunterAPI._request self method endpoint params w)) = [c]
    /\ call_method c = method
    /\ call_url c = "https://api.hunter.io/v2/" ++ endpoint
    /\ lookup "api_key" (call_params c) = Some (PStr (HunterAPI.api_key self))
    /\ (forall k, k <> "api_key" -> lookup k (call_params c) = lookup k p)
    /\ (params = None -> call_params c = [("api_key", PStr (HunterAPI.api_key self))]).
Proof.
  intros p. rewrite request_run_any. fold p. cbn [snd].
  eexists. split; [apply calls_made_sent; reflexivity |]. cbn [call_method call_url call_params].
  repeat split.
  - apply lookup_setitem_same.
  - intros k Hk. apply lookup_setitem_other. congruence.
  - intros ->. reflexivity.
Qed.

(** X2.  The first record of an operation is the DEBUG record of its
    call.  After it comes at most one more record, an ERROR one of the
    [hunter-api] logger; when the operation returns there is none, and when
    the transport raised a [ClientError] it is ["Request error: "] with the
    text of the exception. *)
Theorem X2_operation_records
    {U : Unicode} (self : HunterAPI.client) (o : op) (w : world) :
  let run := perform self o w in
  let c := op_call self o in
  exists tail,
    records_made w (snd run) = debug_record c :: tail
    /\ (length tail <= 1)%nat
    /\ Forall (fun r => log_level r = ERROR /\ logger_name r = "hunter-api") tail
    /\ (forall v, fst run = Ok v -> tail = [])
    /\ (forall text,
          HunterAPI.session self c = Failed (ClientError text) ->
          tail = [mk_log "hunter-api" ERROR ("Request error: " ++ text)]).
Proof.
  intros run c. unfold run. rewrite perform_run. fold c. cbn [fst snd].
  exists (error_records (HunterAPI.session self c)).
  destruct (error_records_shape (HunterAPI.session self c)) as (Hlen & Hlev & Hok).
  split; [unfold records_made; cbn [logged]; apply skipn_app_exact |].
  split; [exact Hlen |]. split; [exact Hlev |]. split.
  - intros v Hv. unfold answer in Hv.
    destruct (fst (HunterAPI.handlers _ initial)) as [v0|e] eqn:E; [| discriminate].
    exact (Hok v0 eq_refl).
  - intros text ->. reflexivity.
Qed.

(** X3.  When [session.request] itself raises a [ClientResponseError], no
    response was bound: the handler logs the API error and then fails on
    [response], so the operation raises [UnboundLocalError] and not the
    [ValueError] of the handlers. *)
Theorem X3_unbound_response
    {U : Unicode} (self : HunterAPI.client) (o : op) (w : world)
    (code : Z) (message text : string) :
  HunterAPI.session self (op_call self o)
    = Failed (ClientResponseError code message text) ->
  let run := perform self o w in
  fst run = Raise (UnboundLocalError
              "cannot access local variable 'response' where it is not associated with a value")
  /\ records_made w (snd run)
     = [debug_record (op_call self o);
        mk_log "hunter-api" ERROR ("API error: " ++ int_text code ++ " - " ++ message)].
Proof.
  intros Hrep run. unfold run. rewrite perform_run, Hrep. cbn [fst snd].
  split; [reflexivity |].
  unfold records_made. cbn [logged]. apply skipn_app_exact.
Qed.

(** X4.  A successful reply whose body is JSON but not an object makes
    [response.get] fail: the operation raises [AttributeError] naming the
    type of the body, after its one call. *)
Theorem X4_body_not_an_object
    {U : Unicode} (self : HunterAPI.client) (o : op) (w : world) (v : value) :
  success v (HunterAPI.session self (op_call self o)) ->
  not_dict v = true ->
  let run := perform self o w in
  fst run = Raise (AttributeError
              ("'" ++ type_name v ++ "' object has no attribute 'get'"))
  /\ calls_made w (snd run) = [op_call self o].
Proof.
  intros Hs Hv run. unfold run. rewrite perform_run. cbn [fst snd].
  split; [| apply calls_made_sent; reflexivity].
  rewrite (answer_success _ _ Hs).
  destruct v; try reflexivity. discriminate.
Qed.

(** X18.  An error reply without a body and announced as
    [application/json] reads as [None] in the handler, which then fails on
    [error_data.get]: the operation raises [AttributeError]. *)
Theorem X18_error_without_body
    {U : Unicode} (self : HunterAPI.client) (o : op) (w : world) (r : response) :
  HunterAPI.session self (op_call self o) = Responded r ->
  400 <= status r ->
  content_type r = "application/json" ->
  empty_payload r = true ->
  json r = Ok PNone ->
  fst (perform self o w)
  = Raise (AttributeError "'NoneType' object has no attribute 'get'").
Proof.
  intros Hrep Hst Hct Hempty Hjs.
  rewrite perform_run, Hrep. cbn [fst].
  assert (Hreleased : HunterAPI.json_released r = Ok PNone).
  { unfold HunterAPI.json_released. rewrite Hempty, Hjs.
    now rewrite andb_false_r. }
  now rewrite (answer_json_returns r Hst _ Hct Hreleased).
Qed.

(* ================================================================== *)
(** ** More on [POST /tools/call] *)
(* ================================================================== *)

Section ToolCalls.

Context {U : Unicode}.

Variable self : HunterAPI.client.

Lemma op_call_client (o : op) : client_call self (op_call self o).
Proof.
  destruct o; (split; [reflexivity |]); (split; [simpl; auto |]);
    apply lookup_setitem_same.
Qed.

(** The three ways [call_tool] of [main.py] deals with a JSON object: an
    unknown name, a failure before the client is reached, or one
    operation. *)
Lemma call_tool_cases (data : dict) (w : world) :
  let name := get_default "name" PNone data in
  let arguments := get_default "arguments" (PDict []) data in
  let entered := (logged w ++ [tool_call_record name arguments])%list in
  (Main.registered name = false
   /\ Main.call_tool self (Ok (PDict data)) w =
        match JSONResponse 404 (PDict [("error", PStr ("Unknown tool: " ++ str name))]) with
        | Ok a => (Ok a, {| logged := entered; sent := sent w |})
        | Raise e =>
            (JSONResponse 500 (PDict [("error", PStr (exn_str e))]),
             {| logged := entered ++ [tool_error_record name (exn_str e)];
                sent := sent w |})
        end)
  \/ (Main.registered name = true
      /\ exists e,
           Main.call_tool self (Ok (PDict data)) w =
             (JSONResponse 500 (PDict [("error", PStr (exn_str e))]),
              {| logged := entered ++ [tool_error_record name (exn_str e)];
                 sent := sent w |}))
  \/ (Main.registered name = true
      /\ exists o,
           let rep := HunterAPI.session self (op_call self o) in
           Main.call_tool self (Ok (PDict data)) w =
             (match answer rep with
              | Ok v => Ok (returned (text_content v))
              | Raise e => JSONResponse 500 (PDict [("error", PStr (exn_str e))])
              end,
              {| logged :=
                   entered ++ debug_record (op_call self o) :: error_records rep
                     ++ match answer rep with
                        | Ok _ => []
                        | Raise e => [tool_error_record name (exn_str e)]
                        end;
                 sent := sent w ++ [op_call self o] |})).
Proof.
  intros name arguments entered.
  destruct (Main.registered name) eqn:Hreg.
  - right. rewrite call_tool_run. fold name. fold arguments.
    destruct (dispatch_cases name arguments) as [(out & Hd & Hout) | (o & _ & Hd)];
      rewrite Hd.
    + left. split; [reflexivity |].
      destruct (Hout Hreg) as (e & ->). exists e. reflexivity.
    + right. split; [reflexivity |]. exists o. cbv zeta. rewrite perform_run.
      destruct (answer _); cbn [logged sent]; unfold entered;
        rewrite <- ?app_assoc; cbn [app]; rewrite ?app_nil_r; reflexivity.
  - left. split; [reflexivity |]. rewrite call_tool_run. fold name. fold arguments.
    rewrite (unknown_tool_dispatch self name arguments _ Hreg).
    destruct (JSONResponse 404 _); reflexivity.
Qed.

End ToolCalls.

(** X5.  Whatever the body and whatever the upstream does, [call_tool] of
    [main.py] makes at most one outbound call, and a call it makes is a GET
    on one of the three addresses of the API with the client's key. *)
Theorem X5_at_most_one_call
    {U : Unicode} (self : HunterAPI.client) (body : result value) (w : world) :
  let calls := calls_made w (snd (Main.call_tool self body w)) in
  (length calls <= 1)%nat /\ Forall (client_call self) calls.
Proof.
  intros calls. unfold calls.
  destruct body as [data | e].
  2: { rewrite calls_made_none by reflexivity. split; [simpl; lia | constructor]. }
  destruct data as [| | | | | |data];
    try (rewrite calls_made_none by reflexivity; split; [simpl; lia | constructor]).
  assert (Hsent : sent (snd (Main.call_tool self (Ok (PDict data)) w)) = sent w
                  \/ exists o, sent (snd (Main.call_tool self (Ok (PDict data)) w))
                               = (sent w ++ [op_call self o])%list).
  { rewrite call_tool_sent.
    match goal with
    | |- context [Main.dispatch self ?n ?a ?w0] =>
        destruct (dispatch_cases n a) as [(out & Hd & _) | (o & _ & Hd)];
        rewrite !(Hd self w0)
    end.
    - left. reflexivity.
    - right. exists o. rewrite perform_run. destruct (answer _); reflexivity. }
  destruct Hsent as [Hsent | (o & Hsent)].
  - rewrite (calls_made_none w _ Hsent). split; [simpl; lia | constructor].
  - rewrite (calls_made_sent w _ _ Hsent).
    split; [simpl; lia |]. constructor; [apply op_call_client | constructor].
Qed.

(** X6.  When [call_tool] of [main.py] answers a body that is a JSON
    object, the answer is one of three.  A 200 carries the one text block
    and came from exactly one outbound call.  A 404 is for a name outside
    [TOOLS], carries that name and came from no call.  A 500 carries an
    error envelope and nothing else. *)
Theorem X6_status_of_answer
    {U : Unicode} (self : HunterAPI.client) (data : dict) (w : world)
    (answered : http_response) :
  let run := Main.call_tool self (Ok (PDict data)) w in
  let name := get_default "name" PNone data in
  fst run = Ok answered ->
  (status_code answered = 200
   /\ (exists v,
         content answered
         = PDict [("content",
                   PList [PDict [("type", PStr "text");
                                 ("text", PStr (dumps_indent2 v))]])])
   /\ length (calls_made w (snd run)) = 1%nat)
  \/ (status_code answered = 404
      /\ Main.registered name = false
      /\ content answered = PDict [("error", PStr ("Unknown tool: " ++ str name))]
      /\ calls_made w (snd run) = [])
  \/ (status_code answered = 500
      /\ exists message, content answered = PDict [("error", PStr message)]).
Proof.
  intros run name. unfold run.
  destruct (call_tool_cases self data w)
    as [(Hreg & ->) | [(Hreg & e & ->) | (Hreg & o & ->)]]; fold name.
  - match goal with
    | |- context [match JSONResponse 404 ?b with _ => _ end] =>
        destruct (JSONResponse_cases 404 b) as [-> | (text & ->)]
    end; cbn [fst snd].
    + intros H. injection H as <-. right. left.
      repeat split; auto. now apply calls_made_none.
    + destruct (JSONResponse_cases 500 (PDict [("error", PStr (exn_str (UnicodeEncodeError text)))]))
        as [-> | (t & ->)]; intros H; [| discriminate].
      injection H as <-. right. right. split; [reflexivity | eexists; reflexivity].
  - cbn [fst].
    destruct (JSONResponse_cases 500 (PDict [("error", PStr (exn_str e))]))
      as [-> | (t & ->)]; intros H; [| discriminate].
    injection H as <-. right. right. split; [reflexivity | eexists; reflexivity].
  - cbv zeta. cbn [fst snd].
    destruct (answer _) as [v | e].
    + intros H. injection H as <-. left.
      split; [reflexivity |]. split; [exists v; reflexivity |].
      now rewrite (calls_made_sent w _ [op_call self o]).
    + destruct (JSONResponse_cases 500 (PDict [("error", PStr (exn_str e))]))
        as [-> | (t & ->)]; intros H; [| discriminate].
      injection H as <-. right. right. split; [reflexivity | eexists; reflexivity].
Qed.

(** X7.  Every 500 of [call_tool] is logged: the last record written is
    the ERROR record of [hunter-mcp] with the tool name and the very
    message the response carries.  An answer that is not a 500 leaves no
    ERROR record of that logger. *)
Theorem X7_errors_are_logged
    {U : Unicode} (self : HunterAPI.client) (data : dict) (w : world)
    (answered : http_response) :
  let run := Main.call_tool self (Ok (PDict data)) w in
  let name := get_default "name" PNone data in
  fst run = Ok answered ->
  (status_code answered = 500 ->
   exists message front,
     content answered = PDict [("error", PStr message)]
     /\ logged (snd run)
        = (front ++ [mk_log "hunter-mcp" ERROR
                       ("Error executing tool " ++ str name ++ ": " ++ message)])%list)
  /\ (status_code answered <> 500 ->
      Forall (fun r => ~ (logger_name r = "hunter-mcp" /\ log_level r = ERROR))
        (records_made w (snd run))).
Proof.
  intros run name. unfold run.
  destruct (call_tool_cases self data w)
    as [(Hreg & ->) | [(Hreg & e & ->) | (Hreg & o & ->)]]; fold name.
  - match goal with
    | |- context [match JSONResponse 404 ?b with _ => _ end] =>
        destruct (JSONResponse_cases 404 b) as [-> | (text & ->)]
    end; cbn [fst snd].
    + intros H. injection H as <-. cbn [status_code]. split; [discriminate |].
      intros _. unfold records_made. cbn [logged]. rewrite skipn_app_exact.
      repeat constructor. cbn. intros [_ H]. discriminate.
    + destruct (JSONResponse_cases 500 (PDict [("error", PStr (exn_str (UnicodeEncodeError text)))]))
        as [-> | (t & ->)]; intros H; [| discriminate].
      injection H as <-. cbn [status_code content logged]. split; [| congruence].
      intros _. do 2 eexists. split; reflexivity.
  - cbn [fst snd].
    destruct (JSONResponse_cases 500 (PDict [("error", PStr (exn_str e))]))
      as [-> | (t & ->)]; intros H; [| discriminate].
    injection H as <-. cbn [status_code content logged]. split; [| congruence].
    intros _. do 2 eexists. split; reflexivity.
  - cbv zeta. cbn [fst snd].
    destruct (answer (HunterAPI.session self (op_call self o))) as [v | e] eqn:Hans.
    + intros H. injection H as <-. cbn [status_code returned]. split; [discriminate |].
      intros _.
      unfold records_made. cbn [logged]. rewrite <- app_assoc. rewrite skipn_app_exact.
      constructor; [cbn; intros [_ H]; discriminate |].
      constructor; [cbn; intros [H _]; discriminate |].
      rewrite app_nil_r.
      destruct (error_records_shape (HunterAPI.session self (op_call self o)))
        as (_ & Hlev & _).
      eapply Forall_impl; [| exact Hlev]. cbn beta.
      intros r [_ Hname] [Hmcp _]. rewrite Hname in Hmcp. discriminate.
    + destruct (JSONResponse_cases 500 (PDict [("error", PStr (exn_str e))]))
        as [-> | (t & ->)]; intros H; [| discriminate].
      injection H as <-. cbn [status_code content logged]. split; [| congruence].
      intros _.
      exists (exn_str e). eexists. split; [reflexivity |].
      rewrite app_comm_cons. rewrite !app_assoc. reflexivity.
Qed.

Section Keywords.

Context {U : Unicode}.

Lemma keyword_not_self (k : string) :
  existsb (String.eqb k) find_email_keywords = true -> String.eqb k "self" = false.
Proof.
  intros Hk. destruct (String.eqb k "self") eqn:E; [| reflexivity].
  apply String.eqb_eq in E. subst k. discriminate.
Qed.

Lemma check_keywords_accepts (d : dict) :
  keywords_known d = true -> check_keywords d = Ok tt.
Proof.
  unfold keywords_known.
  induction d as [|[k v] d IH]; [reflexivity |].
  cbn [check_keywords forallb fst].
  intros H. apply andb_true_iff in H. destruct H as [Hk Hd].
  rewrite (keyword_not_self k Hk), Hk. auto.
Qed.

Lemma check_keywords_rejects (d : dict) :
  keywords_known d = false -> exists text, check_keywords d = Raise (TypeError text).
Proof.
  unfold keywords_known.
  induction d as [|[k v] d IH]; [discriminate |].
  cbn [check_keywords forallb fst]. intros H.
  destruct (String.eqb k "self"); [eexists; reflexivity |].
  destruct (existsb (String.eqb k) find_email_keywords).
  - apply IH. exact H.
  - eexists; reflexivity.
Qed.

Lemma find_email_params_lookup
    (self : HunterAPI.client) (domain : value)
    (first_name last_name company full_name : option value) :
  let params :=
    call_params (outbound self "email-finder"
      (HunterAPI.find_email_params domain first_name last_name company full_name)) in
  lookup "domain" params = Some domain
  /\ lookup "first_name" params = supplied first_name
  /\ lookup "last_name" params = supplied last_name
  /\ lookup "company" params = supplied company
  /\ lookup "full_name" params = supplied full_name.
Proof.
  unfold outbound, HunterAPI.find_email_params, HunterAPI.set_if,
    HunterAPI.or_default, supplied; simpl call_params.
  destruct first_name as [v1|]; [destruct (truthy v1) |];
  (destruct last_name as [v2|]; [destruct (truthy v2) |]);
  (destruct company as [v3|]; [destruct (truthy v3) |]);
  (destruct full_name as [v4|]; [destruct (truthy v4) |]);
  cbn; repeat split.
Qed.

(** The [try] block of [main.py] for [email_finder] with a [dict]. *)
Lemma dispatch_email_finder (self : HunterAPI.client) (d : dict) (w : world) :
  Main.dispatch self (PStr "email_finder") (PDict d) w =
    match check_keywords d with
    | Raise e => (Raise e, w)
    | Ok _ =>
        match lookup "domain" d with
        | None =>
            (Raise (TypeError
               "HunterAPI.find_email() missing 1 required positional argument: 'domain'"), w)
        | Some domain =>
            let '(res, w') :=
              perform self (FindEmail domain (lookup "first_name" d) (lookup "last_name" d)
                              (lookup "company" d) (lookup "full_name" d)) w in
            (match res with
             | Ok v => Ok (returned (text_content v))
             | Raise e => Raise e
             end, w')
        end
    end.
Proof.
  unfold Main.dispatch. cbn [eq_str String.eqb Ascii.eqb Bool.eqb].
  unfold call_find_email, bind, lift.
  destruct (check_keywords d); [| reflexivity].
  destruct (lookup "domain" d); [| reflexivity].
  cbn [perform].
  destruct (HunterAPI.find_email _ _ _ _ _ _ w) as [[found|failed] w']; reflexivity.
Qed.

End Keywords.

(** X8.  [email_finder] takes its arguments as keywords of [find_email]:
    an argument under any other name ([limit], say, or [self]) makes the
    binding fail with a [TypeError], so no call goes out; the answer is
    500 with the message of the error, when that can be encoded. *)
Theorem X8_unknown_argument
    {U : Unicode} (self : HunterAPI.client) (data d : dict) (w : world) :
  lookup "name" data = Some (PStr "email_finder") ->
  lookup "arguments" data = Some (PDict d) ->
  keywords_known d = false ->
  let run := Main.call_tool self (Ok (PDict data)) w in
  calls_made w (snd run) = []
  /\ exists text,
       check_keywords d = Raise (TypeError text)
       /\ (encodable (PDict [("error", PStr text)]) = true ->
           fst run = Ok {| status_code := 500;
                           content := PDict [("error", PStr text)] |}).
Proof.
  intros Hname Hargs Hbad run. unfold run.
  destruct (check_keywords_rejects d Hbad) as (text & Hcheck).
  split.
  - apply calls_made_none. rewrite call_tool_sent.
    unfold get_default. rewrite Hname, Hargs.
    rewrite dispatch_email_finder, Hcheck. reflexivity.
  - exists text. split; [exact Hcheck |]. intros Henc.
    rewrite call_tool_run. unfold get_default. rewrite Hname, Hargs.
    rewrite dispatch_email_finder, Hcheck. cbn [fst exn_str].
    now apply JSONResponse_encodable.
Qed.

(** X9.  [email_finder] with a [domain] and no argument outside the
    parameters of [find_email] makes the one call of [find_email]: on the
    finder address, with the domain, and with each optional argument
    exactly when it is there and tests true.  No rule across fields is
    checked.  On a successful reply the answer is the 200 with the text
    block of the reply's ["data"]. *)
Theorem X9_email_finder_arguments
    {U : Unicode} (self : HunterAPI.client) (data d : dict) (domain : value) (w : world) :
  lookup "name" data = Some (PStr "email_finder") ->
  lookup "arguments" data = Some (PDict d) ->
  keywords_known d = true ->
  lookup "domain" d = Some domain ->
  let run := Main.call_tool self (Ok (PDict data)) w in
  let c := op_call self (FindEmail domain (lookup "first_name" d) (lookup "last_name" d)
                           (lookup "company" d) (lookup "full_name" d)) in
  calls_made w (snd run) = [c]
  /\ call_url c = "https://api.hunter.io/v2/email-finder"
  /\ lookup "domain" (call_params c) = Some domain
  /\ lookup "first_name" (call_params c) = supplied (lookup "first_name" d)
  /\ lookup "last_name" (call_params c) = supplied (lookup "last_name" d)
  /\ lookup "company" (call_params c) = supplied (lookup "company" d)
  /\ lookup "full_name" (call_params c) = supplied (lookup "full_name" d)
  /\ (forall envelope,
        success (PDict envelope) (HunterAPI.session self c) ->
        fst run =
          Ok {| status_code := 200;
                content :=
                  PDict [("content",
                          PList [PDict [("type", PStr "text");
                                        ("text",
                                         PStr (dumps_indent2
                                                 (get_default "data" (PDict []) envelope)))]])]
             |}).
Proof.
  intros Hname Hargs Hkeys Hdom run c.
  assert (Hd : Main.dispatch self (get_default "name" PNone data)
                 (get_default "arguments" (PDict []) data)
                 {| logged := logged w ++
                      [tool_call_record (get_default "name" PNone data)
                         (get_default "arguments" (PDict []) data)];
                    sent := sent w |}
               = (match answer (HunterAPI.session self c) with
                  | Ok v => Ok (returned (text_content v))
                  | Raise e => Raise e
                  end,
                  {| logged := (logged w ++
                        [tool_call_record (get_default "name" PNone data)
                           (get_default "arguments" (PDict []) data)])
                        ++ debug_record c :: error_records (HunterAPI.session self c);
                     sent := sent w ++ [c] |})).
  { unfold get_default. rewrite Hname, Hargs.
    rewrite dispatch_email_finder, (check_keywords_accepts d Hkeys), Hdom.
    rewrite perform_run. reflexivity. }
  split.
  { apply calls_made_sent. unfold run. rewrite call_tool_sent, Hd. reflexivity. }
  split; [reflexivity |].
  destruct (find_email_params_lookup self domain (lookup "first_name" d)
              (lookup "last_name" d) (lookup "company" d) (lookup "full_name" d))
    as (H1 & H2 & H3 & H4 & H5).
  repeat (split; [assumption |]).
  intros envelope Hs. unfold run. rewrite call_tool_run, Hd.
  rewrite (answer_success _ _ Hs). reflexivity.
Qed.

(** X10.  [domain_search] through [call_tool] hands the arguments on as
    they are: the given [limit], whatever its value or type (10 only when
    the key is absent), and [type] exactly when it is there and tests
    true, without looking at the enumeration of the schema. *)
Theorem X10_domain_search_arguments
    {U : Unicode} (self : HunterAPI.client) (data d : dict) (domain : value) (w : world) :
  lookup "name" data = Some (PStr "domain_search") ->
  lookup "arguments" data = Some (PDict d) ->
  lookup "domain" d = Some domain ->
  exists c,
    calls_made w (snd (Main.call_tool self (Ok (PDict data)) w)) = [c]
    /\ call_url c = "https://api.hunter.io/v2/domain-search"
    /\ lookup "domain" (call_params c) = Some domain
    /\ lookup "limit" (call_params c) = Some (get_default "limit" (PInt 10) d)
    /\ lookup "type" (call_params c) = supplied (lookup "type" d).
Proof.
  intros Hname Hargs Hdom.
  exists (op_call self (DomainSearch domain (Some (get_default "limit" (PInt 10) d))
                          (Some (get_default "type" PNone d)))).
  split.
  { apply calls_made_sent. rewrite call_tool_sent.
    unfold get_default at 1 2. rewrite Hname, Hargs.
    unfold Main.dispatch. cbn [eq_str String.eqb Ascii.eqb Bool.eqb].
    unfold bind, lift, method_get, subscript_str. rewrite Hdom.
    change (HunterAPI.domain_search self domain (Some (get_default "limit" (PInt 10) d))
              (Some (get_default "type" PNone d)))
      with (perform self (DomainSearch domain (Some (get_default "limit" (PInt 10) d))
                            (Some (get_default "type" PNone d)))).
    rewrite perform_run. destruct (answer _); reflexivity. }
  split; [reflexivity |].
  unfold op_call, outbound, HunterAPI.domain_search_params, HunterAPI.set_if,
    HunterAPI.or_default, supplied, get_default. simpl call_params.
  destruct (lookup "type" d) as [t|]; [destruct (truthy t) |];
    repeat split.
Qed.

(** X11.  When the arguments are a JSON object without the key a tool
    subscripts ([email] for [email_verifier], [domain] for
    [domain_search]), the error of the 500 is the text of the [KeyError]:
    the name of the key in quotes, and nothing else. *)
Theorem X11_missing_key_message
    {U : Unicode} (self : HunterAPI.client) (data d : dict) (w : world) :
  lookup "arguments" data = Some (PDict d) ->
  (lookup "name" data = Some (PStr "email_verifier") ->
   lookup "email" d = None ->
   fst (Main.call_tool self (Ok (PDict data)) w)
   = Ok {| status_code := 500; content := PDict [("error", PStr "'email'")] |})
  /\ (lookup "name" data = Some (PStr "domain_search") ->
      lookup "domain" d = None ->
      fst (Main.call_tool self (Ok (PDict data)) w)
      = Ok {| status_code := 500; content := PDict [("error", PStr "'domain'")] |}).
Proof.
  intros Hargs. split; intros Hname Hkey;
    rewrite call_tool_run; unfold get_default; rewrite Hname, Hargs;
    unfold Main.dispatch; cbn [eq_str String.eqb Ascii.eqb Bool.eqb];
    unfold bind, lift, method_get, subscript_str; rewrite Hkey; reflexivity.
Qed.

(* ================================================================== *)
(** ** The reduced server *)
(* ================================================================== *)

Section Simple.

Context {U : Unicode}.

Variable self : HunterAPI.client.

(** [call_tool] of [simple_mcp.py] on a JSON object. *)
Lemma simple_call_tool_run (data : dict) (w : world) :
  let name := get_default "name" PNone data in
  let arguments := get_default "arguments" (PDict []) data in
  let entered :=
    {| logged := logged w ++
         [mk_log "hunter-mcp-simple" INFO
            ("Tool call: " ++ str name ++ " with arguments " ++ str arguments)];
       sent := sent w |} in
  SimpleMcp.call_tool self (Ok (PDict data)) w =
    try_except
      (if eq_str name "email_finder" then
         result <- call_find_email self arguments ;;
         ret (returned (text_content result))
       else if eq_str name "domain_search" then
         domain <- lift (subscript_str arguments "domain") ;;
         result <- HunterAPI.domain_search self domain None None ;;
         ret (returned (text_content result))
       else
         log "hunter-mcp-simple" ERROR ("Unknown tool: " ++ str name) ;;;
         lift (JSONResponse 404 (PDict [("error", PStr ("Unknown tool: " ++ str name))])))
      (fun e =>
         log "hunter-mcp-simple" ERROR ("Error executing tool: " ++ exn_str e) ;;;
         lift (JSONResponse 500 (PDict [("error", PStr (exn_str e))])))
      entered.
Proof. reflexivity. Qed.

(** What the [except] clause of [simple_mcp.py] does with an exception. *)
Lemma simple_handler (e : exn) (w1 : world) :
  let run :=
    (log "hunter-mcp-simple" ERROR ("Error executing tool: " ++ exn_str e) ;;;
     lift (JSONResponse 500 (PDict [("error", PStr (exn_str e))]))) w1 in
  sent (snd run) = sent w1
  /\ ((exists a, fst run = Ok a /\ status_code a = 500)
      \/ exists text, fst run = Raise (UnicodeEncodeError text)).
Proof.
  cbv zeta. unfold bind, log, lift. cbn [fst snd sent].
  split; [reflexivity |].
  destruct (JSONResponse_cases 500 (PDict [("error", PStr (exn_str e))]))
    as [-> | (text & ->)]; [left | right]; eexists; eauto.
Qed.

(** What [call_tool] of [simple_mcp.py] sends and answers for a JSON
    object. *)
Lemma simple_call_tool_cases (data : dict) (w : world) :
  let run := SimpleMcp.call_tool self (Ok (PDict data)) w in
  (sent (snd run) = sent w
   \/ exists o, sent (snd run) = (sent w ++ [op_call self o])%list)
  /\ ((exists a,
         fst run = Ok a
         /\ (status_code a = 200 \/ status_code a = 500
             \/ (status_code a = 404
                 /\ SimpleMcp.registered (get_default "name" PNone data) = false)))
      \/ exists text, fst run = Raise (UnicodeEncodeError text)).
Proof.
  rewrite simple_call_tool_run. cbv zeta.
  set (name := get_default "name" PNone data).
  set (arguments := get_default "arguments" (PDict []) data).
  set (entered := {| logged := _; sent := sent w |}).
  assert (Hentered : sent entered = sent w) by reflexivity.
  clearbody entered arguments.
  set (good := fun run : result http_response * world =>
    (sent (snd run) = sent w
     \/ exists o, sent (snd run) = (sent w ++ [op_call self o])%list)
    /\ ((exists a,
           fst run = Ok a
           /\ (status_code a = 200 \/ status_code a = 500
               \/ (status_code a = 404 /\ SimpleMcp.registered name = false)))
        \/ exists text, fst run = Raise (UnicodeEncodeError text))).
  match goal with |- ?P /\ ?Q => change (good (try_except
      (if eq_str name "email_finder" then
         result <- call_find_email self arguments ;;
         ret (returned (text_content result))
       else if eq_str name "domain_search" then
         domain <- lift (subscript_str arguments "domain") ;;
         result <- HunterAPI.domain_search self domain None None ;;
         ret (returned (text_content result))
       else
         log "hunter-mcp-simple" ERROR ("Unknown tool: " ++ str name) ;;;
         lift (JSONResponse 404 (PDict [("error", PStr ("Unknown tool: " ++ str name))])))
      (fun e =>
         log "hunter-mcp-simple" ERROR ("Error executing tool: " ++ exn_str e) ;;;
         lift (JSONResponse 500 (PDict [("error", PStr (exn_str e))])))
      entered)) end.
  assert (Hstop : forall (e : exn) (w1 : world),
    sent w1 = sent w ->
    good ((log "hunter-mcp-simple" ERROR ("Error executing tool: " ++ exn_str e) ;;;
           lift (JSONResponse 500 (PDict [("error", PStr (exn_str e))]))) w1)).
  { intros e w1 Hw1. destruct (simple_handler e w1) as [Hs Ha]. cbv zeta in Hs, Ha.
    split; [left; now rewrite Hs |].
    destruct Ha as [(a & Ha & H500) | (text & Ht)]; [left | right; eauto].
    exists a. auto. }
  assert (Hop : forall (o : op),
    good (try_except
            (result <- perform self o ;; ret (returned (text_content result)))
            (fun e =>
               log "hunter-mcp-simple" ERROR ("Error executing tool: " ++ exn_str e) ;;;
               lift (JSONResponse 500 (PDict [("error", PStr (exn_str e))])))
            entered)).
  { intros o. unfold try_except, bind at 1. rewrite perform_run.
    destruct (answer _) as [v|e].
    - unfold ret. split; cbn [fst snd sent].
      + right. exists o. now rewrite Hentered.
      + left. eexists. split; [reflexivity |]. left. reflexivity.
    - match goal with
      | |- good ((log ?n ?l ?m ;;; lift ?r) ?w1) =>
          destruct (simple_handler e w1) as [Hs Ha]
      end.
      cbv zeta in Hs, Ha.
      split.
      + right. exists o. rewrite Hs. cbn [sent]. now rewrite Hentered.
      + destruct Ha as [(a & Ha & H500) | (text & Ht)]; [left | right; eauto].
        exists a. auto. }
  destruct (eq_str name "email_finder") eqn:E1.
  - unfold call_find_email.
    destruct arguments as [| | | | | |d];
      try (unfold try_except, bind at 1, raise; apply Hstop; exact Hentered).
    destruct (check_keywords d) eqn:Hck.
    + destruct (lookup "domain" d) as [domain|] eqn:Hdom.
      * exact (Hop (FindEmail domain (lookup "first_name" d) (lookup "last_name" d)
                      (lookup "company" d) (lookup "full_name" d))).
      * unfold try_except, bind at 1, bind at 1, lift, raise. apply Hstop. exact Hentered.
    + unfold try_except, bind at 1, bind at 1, lift. apply Hstop. exact Hentered.
  - destruct (eq_str name "domain_search") eqn:E2.
    + destruct (subscript_str arguments "domain") as [domain|e] eqn:Hdom.
      * exact (Hop (DomainSearch domain None None)).
      * unfold try_except, bind at 1, lift. apply Hstop. exact Hentered.
    + assert (Hreg : SimpleMcp.registered name = false).
      { unfold SimpleMcp.registered. cbn [existsb SimpleMcp.TOOLS Main.tool_name].
        now rewrite E1, E2. }
      unfold try_except, bind at 1, log at 1, lift at 1.
      destruct (JSONResponse_cases 404
                  (PDict [("error", PStr ("Unknown tool: " ++ str name))]))
        as [-> | (text & ->)].
      * unfold good. cbn [fst snd sent]. split; [left; exact Hentered |].
        left. eexists. split; [reflexivity |]. right. right.
        split; [reflexivity | exact Hreg].
      * apply Hstop. exact Hentered.
Qed.

End Simple.

(** X12.  The [domain_search] of [simple_mcp.py] passes only the domain:
    whatever [limit] and [type] the arguments hold, the call goes out with
    [limit=10] and without [type]. *)
Theorem X12_simple_domain_search
    {U : Unicode} (self : HunterAPI.client) (data d : dict) (domain : value) (w : world) :
  lookup "name" data = Some (PStr "domain_search") ->
  lookup "arguments" data = Some (PDict d) ->
  lookup "domain" d = Some domain ->
  calls_made w (snd (SimpleMcp.call_tool self (Ok (PDict data)) w))
  = [mk_call "GET" "https://api.hunter.io/v2/domain-search"
       [("domain", domain); ("limit", PInt 10);
        ("api_key", PStr (HunterAPI.api_key self))]].
Proof.
  intros Hname Hargs Hdom.
  rewrite simple_call_tool_run. unfold get_default. rewrite Hname, Hargs.
  cbn [eq_str String.eqb Ascii.eqb Bool.eqb].
  unfold try_except, bind at 1, lift, subscript_str. rewrite Hdom.
  change (HunterAPI.domain_search self domain None None)
    with (perform self (DomainSearch domain None None)).
  unfold bind at 1. rewrite perform_run.
  apply calls_made_sent. destruct (answer _); reflexivity.
Qed.

(** X13.  [call_tool] of [simple_mcp.py] makes at most one call.
    Whatever the body is, it answers with 200, 404 or 500, or else it is
    left by the exception of the encoder, for an error envelope that cannot
    be encoded.  For a JSON object a 404 means that the name is none of the
    two tools the server lists, [email_verifier] included. *)
Theorem X13_simple_always_answers
    {U : Unicode} (self : HunterAPI.client) (body : result value) (w : world) :
  let run := SimpleMcp.call_tool self body w in
  (length (calls_made w (snd run)) <= 1)%nat
  /\ ((exists answered,
         fst run = Ok answered
         /\ (status_code answered = 200 \/ status_code answered = 404
             \/ status_code answered = 500))
      \/ exists text, fst run = Raise (UnicodeEncodeError text))
  /\ (forall data answered,
        body = Ok (PDict data) ->
        fst run = Ok answered ->
        status_code answered = 404 ->
        SimpleMcp.registered (get_default "name" PNone data) = false).
Proof.
  intros run. unfold run.
  assert (Hraise : forall e,
    let run := (log "hunter-mcp-simple" ERROR ("Error executing tool: " ++ exn_str e) ;;;
                lift (JSONResponse 500 (PDict [("error", PStr (exn_str e))]))) w in
    (length (calls_made w (snd run)) <= 1)%nat
    /\ ((exists answered,
           fst run = Ok answered
           /\ (status_code answered = 200 \/ status_code answered = 404
               \/ status_code answered = 500))
        \/ exists text, fst run = Raise (UnicodeEncodeError text))).
  { intros e. destruct (simple_handler e w) as [Hs Ha]. cbv zeta.
    split; [rewrite (calls_made_none w _ Hs); simpl; lia |].
    destruct Ha as [(a & Ha & H500) | (text & Ht)]; [left | right; eauto].
    exists a. auto. }
  destruct body as [data | e].
  2: { destruct (Hraise e) as [H1 H2]. split; [exact H1 |]. split; [exact H2 |].
       intros data answered Heq. discriminate. }
  destruct data as [| | | | | |data];
    try (match goal with
         | |- context [SimpleMcp.call_tool self (Ok ?v) w] =>
             destruct (Hraise (AttributeError
                                 ("'" ++ type_name v ++ "' object has no attribute 'get'")))
               as [H1 H2]
         end;
         split; [exact H1 |]; split; [exact H2 |];
         intros data answered Heq; discriminate).
  destruct (simple_call_tool_cases self data w) as [Hsent Hans].
  split.
  { destruct Hsent as [Hs | (o & Hs)].
    - rewrite (calls_made_none w _ Hs). simpl. lia.
    - rewrite (calls_made_sent w _ _ Hs). simpl. lia. }
  split.
  { destruct Hans as [(a & Ha & Hst) | (text & Ht)]; [left | right; eauto].
    exists a. split; [exact Ha |]. intuition auto. }
  intros data0 answered Heq Hrun H404. injection Heq as <-.
  destruct Hans as [(a & Ha & Hst) | (text & Ht)]; [| congruence].
  rewrite Ha in Hrun. injection Hrun as <-.
  destruct Hst as [H | [H | [_ H]]]; [congruence | congruence | exact H].
Qed.

(* ================================================================== *)
(** ** Resources and start-up *)
(* ================================================================== *)

(** X14.  [read_resource] and the [RESOURCES] registry agree: the one
    [uri] that [list_resources] lists is answered with 200 and the
    markdown document; any other [uri] is answered 404 with
    ["Unknown resource: <uri>"], when that body can be encoded, and
    is left by the exception of the encoder otherwise. *)
Theorem X14_resources_agree (uri : string) :
  (uri = "hunter://api-info" <-> In uri listed_uris)
  /\ (In uri listed_uris ->
      Main.read_resource uri
      = Ok {| status_code := 200;
              content := PDict [("type", PStr "text/markdown");
                                ("data", PStr Main.api_info)] |})
  /\ (~ In uri listed_uris ->
      let body := PDict [("error", PStr ("Unknown resource: " ++ uri))] in
      (encodable body = true ->
       Main.read_resource uri = Ok {| status_code := 404; content := body |})
      /\ (encodable body = false ->
          exists text, Main.read_resource uri = Raise (UnicodeEncodeError text)))
  /\ Main.list_resources
     = {| status_code := 200;
          content :=
            PDict [("resources",
                    PList [PDict [("uri", PStr "hunter://api-info");
                                  ("title", PStr "Hunter API Information");
                                  ("description",
                                   PStr "Information about the Hunter API and available endpoints")]])]
       |}
  /\ (String.prefix (String lf "# Hunter API") Main.api_info
      && occurs "**email_finder**" Main.api_info
      && occurs "**email_verifier**" Main.api_info
      && occurs "**domain_search**" Main.api_info
      && occurs "https://hunter.io/api-documentation/v2" Main.api_info)%bool = true.
Proof.
  change listed_uris with ["hunter://api-info"].
  unfold Main.read_resource.
  destruct (String.eqb uri "hunter://api-info") eqn:E.
  - apply String.eqb_eq in E. subst uri.
    split; [split; [intros _; left; reflexivity | reflexivity] |].
    split; [reflexivity |].
    split; [intros H; exfalso; apply H; left; reflexivity |].
    split; [reflexivity | vm_compute; reflexivity].
  - apply String.eqb_neq in E.
    split; [split; [congruence | intros [H | []]; congruence] |].
    split; [intros [H | []]; congruence |].
    split.
    { intros _. unfold error_content. split; intros Henc.
      - now apply JSONResponse_encodable.
      - destruct (JSONResponse_unencodable 404 _ Henc) as (text & _ & H & _). eauto. }
    split; [reflexivity | vm_compute; reflexivity].
Qed.


(* ================================================================== *)
(** ** More on the SSE sessions *)
(* ================================================================== *)

Section MainSse.

Context {U : Unicode}.

Import Main.

(** The loop of [main.py] counts its pings: from the yield of ping [k] on,
    the records are those of pings [k+1], [k+2], ... *)
Lemma run_ping_count (nows : list string) :
  forall k : nat,
    (records (fst (run (AtPing (Z.of_nat k)) (map Resume nows)))
     = map ping_record (seq (S k) (Nat.div2 (length nows)))
     /\ length (events (outcomes (fst (run (AtPing (Z.of_nat k)) (map Resume nows)))))
        = Nat.div2 (length nows))
    /\ forall now,
         records (fst (run (AtPing (Z.of_nat k)) (map Resume (now :: nows))))
         = map ping_record (seq (S k) (Nat.div2 (S (length nows))))
         /\ length (events (outcomes
                     (fst (run (AtPing (Z.of_nat k)) (map Resume (now :: nows))))))
            = Nat.div2 (S (length nows)).
Proof.
  induction nows as [|b nows IH]; intros k.
  - split; [split; reflexivity | intros now; split; reflexivity].
  - split; [apply IH |]. intros a.
    destruct (IH (S k)) as [[Hrec Hev] _].
    change (map Resume (a :: b :: nows)) with (Resume a :: Resume b :: map Resume nows).
    cbn [run event_generator].
    replace (Z.of_nat k + 1) with (Z.of_nat (S k)) by lia.
    destruct (run (AtPing (Z.of_nat (S k))) (map Resume nows)) as [trace q].
    cbn [fst] in Hrec, Hev. unfold records in *.
    cbn [fst snd map concat app outcomes events length Nat.div2 seq].
    unfold outcomes in Hev. rewrite Hrec, Hev. split; reflexivity.
Qed.

Lemma run_from_sleep3 (nows : list string) :
  fst (run Sleep3 (map Resume nows)) = fst (run (AtPing 0) (map Resume nows)).
Proof. destruct nows as [|now nows]; reflexivity. Qed.

End MainSse.

(** X15.  In [main.py] an exception other than a cancellation that is
    raised into the running generator is logged, as the one ERROR record
    of the session, and raised again: the generator is finished and yields
    nothing afterwards. *)
Theorem X15_sse_error_is_raised_again
    {U : Unicode} (nows later : list string) (e : exn) :
  nows <> [] ->
  let ended := Main.run Main.NotStarted
                 (map Main.Resume nows
                    ++ Main.Throw (Main.Error e) :: map Main.Resume later) in
  snd ended = Main.Finished
  /\ Main.outcomes (fst ended)
     = (session_outcomes nows
          ++ Main.Propagated (Main.Error e) :: repeat Main.Stopped (length later))%list
  /\ exists front,
       Main.records (fst ended)
       = (front ++ [mk_log "hunter-mcp" ERROR
                      ("Error in SSE event generator: " ++ exn_str e)])%list
       /\ Forall (fun r => log_level r <> ERROR) front.
Proof.
  intros Hne ended.
  destruct (run_ended nows later (Main.Error e) Hne) as (trace & Hrun & Hout & Hlog).
  unfold ended. rewrite Hrun. cbn [fst snd].
  split; [reflexivity |]. split.
  - rewrite outcomes_app, Hout. cbn [Main.outcomes map snd Main.handle fst].
    fold (Main.outcomes (repeat ([], Main.Stopped) (length later))).
    now rewrite outcomes_repeat_stopped.
  - exists (Main.records trace). split; [| exact Hlog].
    rewrite records_app. f_equal.
    unfold Main.records. cbn [map concat fst Main.handle].
    fold (Main.records (repeat ([], Main.Stopped) (length later))).
    now rewrite records_repeat_stopped.
Qed.

(** X16.  Over a session of [main.py] that got past its handshake, every
    two resumptions give one more ping, and the pings are counted from 1:
    the records are the three of the handshake and then
    ["Sending ping event 1"], ["Sending ping event 2"], ... one for each
    ping yielded. *)
Theorem X16_pings_are_counted {U : Unicode} (nows : list string) :
  (6 <= length nows)%nat ->
  let trace := fst (Main.run Main.NotStarted (map Main.Resume nows)) in
  let pings := Nat.div2 (length nows - 6) in
  Main.records trace
  = ([ mk_log "hunter-mcp" INFO "Sending connected event";
       mk_log "hunter-mcp" INFO "Sending capabilities event";
       mk_log "hunter-mcp" INFO "Sending initialization_complete event" ]
       ++ map ping_record (seq 1 pings))%list
  /\ length (Main.events (Main.outcomes trace)) = (3 + pings)%nat.
Proof.
  intros Hlen.
  do 6 (destruct nows as [|? nows]; [simpl in Hlen; lia |]).
  clear Hlen. intros trace pings.
  assert (Hp : pings = Nat.div2 (length nows)).
  { unfold pings. simpl. now rewrite Nat.sub_0_r. }
  rewrite Hp. clear Hp pings.
  destruct (run_ping_count nows 0) as [[Hrec Hev] _].
  pose proof (run_from_sleep3 nows) as H3.
  unfold trace.
  change (map Main.Resume (s :: s0 :: s1 :: s2 :: s3 :: s4 :: nows))
    with (Main.Resume s :: Main.Resume s0 :: Main.Resume s1 :: Main.Resume s2
            :: Main.Resume s3 :: Main.Resume s4 :: map Main.Resume nows).
  cbn [Main.run Main.event_generator].
  change (Z.of_nat 0) with 0 in Hrec, Hev.
  rewrite <- H3 in Hrec, Hev.
  destruct (Main.run Main.Sleep3 (map Main.Resume nows)) as [rest q].
  cbn [fst] in Hrec, Hev. unfold Main.records, Main.outcomes in *.
  cbn [fst snd map concat app Main.events length].
  rewrite Hrec, Hev. split; reflexivity.
Qed.

Section SimpleSse.

Context {U : Unicode}.

Import SimpleMcp.

Lemma simple_run_app (p : point) (a b : list Main.signal) :
  run p (a ++ b) =
    (let '(t1, q) := run p a in
     let '(t2, q') := run q b in
     ((t1 ++ t2)%list, q')).
Proof.
  revert p. induction a as [|s a IH]; intros p; simpl.
  - destruct (run p b); reflexivity.
  - destruct (event_generator p s) as [[logs out] p'].
    rewrite IH. destruct (run p' a) as [t1 q]. destruct (run q b). reflexivity.
Qed.

Lemma simple_run_keep_alive (nows : list string) :
  Main.outcomes (fst (run SleepPing (map Main.Resume nows))) = simple_keep_alive true nows
  /\ Main.outcomes (fst (run AtPing (map Main.Resume nows))) = simple_keep_alive false nows
  /\ Main.outcomes (fst (run AtCapabilities (map Main.Resume nows)))
     = simple_keep_alive false nows.
Proof.
  induction nows as [|now nows (Hs & Ha & Hc)]; [repeat split |].
  cbn [map run event_generator].
  destruct (run AtPing (map Main.Resume nows)) as [ta qa].
  destruct (run SleepPing (map Main.Resume nows)) as [ts qs].
  cbn [fst Main.outcomes map snd simple_keep_alive negb] in *.
  rewrite Hs, Ha. repeat split.
Qed.

Lemma simple_run_resumes (nows : list string) :
  Main.outcomes (fst (run NotStarted (map Main.Resume nows)))
  = (firstn (length nows) simple_handshake ++ simple_keep_alive false (skipn 3 nows))%list.
Proof.
  do 3 (destruct nows as [|? nows]; [reflexivity |]).
  destruct (simple_run_keep_alive nows) as (_ & _ & H).
  cbn [map run event_generator].
  destruct (run AtCapabilities (map Main.Resume nows)) as [t q].
  cbn [fst Main.outcomes map snd] in *. rewrite H.
  rewrite firstn_all2 by (simpl; lia). reflexivity.
Qed.

Lemma simple_resumes_running (nows : list string) (p : point) :
  simple_running p = true ->
  simple_running (snd (run p (map Main.Resume nows))) = true.
Proof.
  revert p. induction nows as [|now nows IH]; intros p Hp; simpl; [exact Hp |].
  assert (Hnext : simple_running (snd (event_generator p (Main.Resume now))) = true)
    by (destruct p; simpl in *; congruence).
  destruct (event_generator p (Main.Resume now)) as [[logs out] p']. simpl in Hnext.
  specialize (IH p' Hnext). destruct (run p' (map Main.Resume nows)). exact IH.
Qed.

Lemma simple_run_finished (nows : list string) :
  run Finished (map Main.Resume nows)
  = (repeat ([], Main.Stopped) (length nows), Finished).
Proof.
  induction nows as [|now nows IH]; simpl; [reflexivity |]. now rewrite IH.
Qed.

End SimpleSse.

(** X17.  A session of [simple_mcp.py] yields [connected], sleeps 0.1
    seconds, yields [capabilities] and then alternates a sleep of 30
    seconds with a [ping]; it has no [initialization_complete] event.
    Whatever ends it, a cancellation or any exception raised into the
    running generator, the generator returns without raising it again and
    yields nothing afterwards; only a close leaves it as [GeneratorExit]. *)
Theorem X17_simple_session {U : Unicode} (nows later : list string) :
  let session :=
    (firstn (length nows) simple_handshake ++ simple_keep_alive false (skipn 3 nows))%list in
  Main.outcomes (fst (SimpleMcp.run SimpleMcp.NotStarted (map Main.Resume nows))) = session
  /\ Forall (fun ev => Main.event ev <> "initialization_complete") (Main.events session)
  /\ SimpleMcp.ping_interval = 30 * 1000
  /\ (nows <> [] ->
      forall t,
        let ended := SimpleMcp.run SimpleMcp.NotStarted
                       (map Main.Resume nows ++ Main.Throw t :: map Main.Resume later) in
        snd ended = SimpleMcp.Finished
        /\ Main.outcomes (fst ended)
           = (session
                ++ (match t with
                    | Main.GeneratorExit => Main.Propagated Main.GeneratorExit
                    | _ => Main.Stopped
                    end)
                :: repeat Main.Stopped (length later))%list).
Proof.
  intros session.
  split; [apply simple_run_resumes |].
  split.
  { unfold session.
    assert (Hk : forall l slept,
      Forall (fun ev => Main.event ev <> "initialization_complete")
        (Main.events (simple_keep_alive slept l))).
    { induction l as [|now l IH]; intros slept; [constructor |].
      cbn [simple_keep_alive].
      destruct slept; cbn [Main.events negb]; [constructor; [discriminate |] |]; apply IH. }
    rewrite events_app. apply Forall_app. split; [| apply Hk].
    destruct nows as [|a [|b [|c rest]]]; simpl;
      repeat (apply Forall_cons; [cbv; discriminate |]);
      rewrite ?firstn_nil; apply Forall_nil. }
  split; [reflexivity |].
  intros Hne t ended. unfold ended. rewrite simple_run_app.
  pose proof (simple_run_resumes nows) as Hout. fold session in Hout.
  assert (Hrun : simple_running
                   (snd (SimpleMcp.run SimpleMcp.NotStarted (map Main.Resume nows))) = true).
  { destruct nows as [|now rest]; [congruence |].
    cbn [map SimpleMcp.run SimpleMcp.event_generator].
    pose proof (simple_resumes_running rest SimpleMcp.AtConnected eq_refl) as H.
    destruct (SimpleMcp.run SimpleMcp.AtConnected (map Main.Resume rest)). exact H. }
  destruct (SimpleMcp.run SimpleMcp.NotStarted (map Main.Resume nows)) as [trace p].
  cbn [fst snd] in Hout, Hrun.
  assert (Hthrow : SimpleMcp.event_generator p (Main.Throw t) = SimpleMcp.handle t)
    by (destruct p; simpl in *; congruence).
  cbn [SimpleMcp.run]. rewrite Hthrow.
  destruct t; cbn [SimpleMcp.handle]; rewrite simple_run_finished; cbn [fst snd];
    (split; [reflexivity |]);
    rewrite outcomes_app, Hout; cbn [Main.outcomes map snd];
    fold (Main.outcomes (repeat ([], Main.Stopped) (length later)));
    rewrite outcomes_repeat_stopped; reflexivity.
Qed.

(* ================================================================== *)
(** ** Concrete runs *)
(* ================================================================== *)

Section Runs.

#[local] Existing Instance latin1_table.

Lemma C5_find_email_call_witness :
  fst (HunterAPI.find_email
         (replying (ok_reply (PDict [("data", PDict [("email", PStr "ann@x.com")])])))
         (PStr "x.com") (Some (PStr "Ann")) (Some (PStr EmptyString)) None None initial)
  = Ok (PDict [("email", PStr "ann@x.com")]).
Proof.
  pose proof (C5_find_email_call
    (replying (ok_reply (PDict [("data", PDict [("email", PStr "ann@x.com")])])))
    (PStr "x.com") (Some (PStr "Ann")) (Some (PStr EmptyString)) None None initial) as H.
  cbv zeta in H.
  destruct H as (_ & _ & _ & _ & _ & _ & _ & _ & _ & H).
  apply (H [("data", PDict [("email", PStr "ann@x.com")])]).
  eexists. split; [reflexivity |]. split; [simpl; lia | reflexivity].
Defined.

Lemma C6_domain_search_default_limit_witness :
  exists c,
    calls_made initial
      (snd (Main.call_tool (replying (ok_reply (PDict [])))
              (Ok (tool_call "domain_search" [("domain", PStr "x.com")])) initial)) = [c]
    /\ call_url c = "https://api.hunter.io/v2/domain-search"
    /\ lookup "domain" (call_params c) = Some (PStr "x.com")
    /\ lookup "limit" (call_params c) = Some (PInt 10).
Proof.
  apply (proj2 (C6_domain_search_default_limit (replying (ok_reply (PDict []))) initial)
           _ [("domain", PStr "x.com")] (PStr "x.com")); reflexivity.
Defined.

(** A name that is a lone surrogate: 500, not 404. *)
Lemma C7_dispatch_by_name_witness :
  fst (Main.call_tool (replying (ok_reply (PDict [])))
         (Ok (tool_call lone_surrogate [])) initial)
  = Ok {| status_code := 500;
          content :=
            PDict [("error",
                    PStr "'utf-8' codec can't encode character '\ud800' in position 24: surrogates not allowed")] |}.
Proof.
  destruct (proj1 (C7_dispatch_by_name (replying (ok_reply (PDict []))) initial)
              [("name", PStr lone_surrogate); ("arguments", PDict [])] eq_refl)
    as (_ & _ & H).
  destruct (H eq_refl) as (text & Hraise & Hrun).
  vm_compute in Hraise. injection Hraise as <-. exact Hrun.
Defined.

Lemma C10_absent_name_witness :
  fst (Main.call_tool (replying (ok_reply (PDict [])))
         (Ok (PDict [("arguments", PDict [("email", PStr "a@b.com")])])) initial)
  = Ok {| status_code := 404;
          content := PDict [("error", PStr "Unknown tool: None")] |}.
Proof.
  apply (C10_absent_name (replying (ok_reply (PDict [])))
           [("arguments", PDict [("email", PStr "a@b.com")])] initial).
  reflexivity.
Defined.

(** The 401 of the upstream for a bad key, at [POST /tools/call]. *)
Lemma C3_error_body_unread_witness :
  fst (Main.call_tool
         (replying (error_reply 401 "Unauthorized" "application/json" invalid_key_body))
         (Ok (tool_call "email_verifier" [("email", PStr "a@b.com")])) initial)
  = Ok {| status_code := 500;
          content := PDict [("error", PStr "Connection closed")] |}.
Proof.
  pose proof (C3_error_body_unread
    (replying (error_reply 401 "Unauthorized" "application/json" invalid_key_body)) initial)
    as [_ H].
  refine (proj1 (H [("name", PStr "email_verifier");
                    ("arguments", PDict [("email", PStr "a@b.com")])]
                   (mk_response 401 "Unauthorized" "application/json"
                      "https://api.hunter.io/v2/" false (Ok invalid_key_body))
                   (fun _ => eq_refl) eq_refl eq_refl eq_refl eq_refl _)).
  vm_compute. discriminate.
Defined.

(** A status outside 2xx that is below 400 is no error to the client: with
    300 the operation raises nothing and returns the (absent) ["data"]. *)
Lemma status_300_is_returned :
  let rep := error_reply 300 "Multiple Choices" "application/json" invalid_key_body in
  ~ (200 <= 300 <= 299)
  /\ fst (HunterAPI.verify_email (replying rep) (PStr "a@b.com") initial) = Ok (PDict []).
Proof. split; [lia | reflexivity]. Qed.

Lemma C4_handler_failure_escapes_witness :
  fst (HunterAPI.verify_email
         (replying (error_reply 401 "Unauthorized" "application/json"
                      (PDict [("errors", PList [])])))
         (PStr "a@b.com") initial)
  = Raise (ClientError "Connection closed").
Proof.
  refine (proj1 (C4_handler_failure_escapes
           (replying (error_reply 401 "Unauthorized" "application/json"
                        (PDict [("errors", PList [])])))
           (VerifyEmail (PStr "a@b.com")) initial
           (mk_response 401 "Unauthorized" "application/json"
              "https://api.hunter.io/v2/" false (Ok (PDict [("errors", PList [])])))
           eq_refl _ eq_refl) eq_refl).
  simpl. lia.
Defined.

(** A body that does not parse, at the endpoint of [simple_mcp.py]. *)
Lemma C9_body_failures_escape_witness :
  fst (SimpleMcp.call_tool (replying (ok_reply (PDict [])))
         (Raise (ValueError "Expecting value: line 1 column 1 (char 0)")) initial)
  = Ok {| status_code := 500;
          content :=
            PDict [("error", PStr "Expecting value: line 1 column 1 (char 0)")] |}.
Proof.
  destruct (C9_body_failures_escape (replying (ok_reply (PDict []))) initial)
    as (_ & _ & H & _).
  apply (proj1 (H (ValueError "Expecting value: line 1 column 1 (char 0)"))).
  reflexivity.
Defined.


(** The two answers of C2 on concrete requests: a missing [email], and a
    keyword of [email_finder] that holds a surrogate. *)
Lemma missing_email_answer :
  fst (Main.call_tool (replying (ok_reply (PDict [])))
         (Ok (tool_call "email_verifier" [("address", PStr "a@b.com")])) initial)
  = Ok {| status_code := 500; content := PDict [("error", PStr "'email'")] |}.
Proof. reflexivity. Qed.

Lemma surrogate_keyword_answer :
  fst (Main.call_tool (replying (ok_reply (PDict [])))
         (Ok (tool_call "email_finder" [(lone_surrogate, PStr "x")])) initial)
  = Raise (UnicodeEncodeError
      "'utf-8' codec can't encode character '\ud800' in position 69: surrogates not allowed").
Proof. reflexivity. Qed.


(** Two clients with different keys; the address in each reply shows the
    key of the client that asked. *)
Lemma C1_credential_flow_witness :
  let forbidden (key : string) : reply :=
    Responded
      (mk_response 403 "Forbidden" "text/html"
         ("https://api.hunter.io/v2/email-verifier?email=a%40b.com&api_key=" ++ key)
         false (Ok PNone)) in
  let self := HunterAPI.mk_client "k3y-0123" (fun _ => forbidden "k3y-0123") in
  let self' := HunterAPI.mk_client "0ther-k3y" (fun _ => forbidden "0ther-k3y") in
  let body := Ok (tool_call "email_verifier" [("email", PStr "a@b.com")]) in
  fst (Main.call_tool self body initial) = fst (Main.call_tool self' body initial)
  /\ beside_debug (logged (snd (Main.call_tool self body initial)))
     = beside_debug (logged (snd (Main.call_tool self' body initial))).
Proof.
  intros forbidden self self' body.
  apply (proj2 (C1_credential_flow self initial) self' body).
  intros method url p. cbn. repeat split.
Defined.

(** C1 as stated fails: with the logging of [main.py], a tool call writes
    the credential to the log, in the DEBUG record of [_request]. *)
Lemma C1_counterexample :
  let self := replying (ok_reply (PDict [("data", PDict [])])) in
  let after := snd (Main.call_tool self
                      (Ok (tool_call "email_verifier" [("email", PStr "a@b.com")])) initial) in
  HunterAPI.api_key self = "k3y-0123"
  /\ filter Main.written (logged after)
     = [ mk_log "hunter-mcp" INFO
           "Tool call: email_verifier with arguments {'email': 'a@b.com'}";
         mk_log "hunter-api" DEBUG
           "Making GET request to https://api.hunter.io/v2/email-verifier with params {'email': 'a@b.com', 'api_key': 'k3y-0123'}" ]
  /\ existsb (fun r => Main.written r && occurs "k3y-0123" (log_message r)) (logged after)
     = true.
Proof. repeat split. Qed.

Lemma C8_sse_session_witness :
  let ended := Main.run Main.NotStarted
                 (map Main.Resume ["1.0"; "1.0"; "1.1"; "1.1"; "1.2"; "1.2"; "1.3"; "11.3"]
                    ++ Main.Throw Main.CancelledError :: map Main.Resume ["11.4"]) in
  snd ended = Main.Finished
  /\ Main.outcomes (fst ended)
     = (session_outcomes ["1.0"; "1.0"; "1.1"; "1.1"; "1.2"; "1.2"; "1.3"; "11.3"]
          ++ Main.Stopped :: repeat Main.Stopped 1)%list
  /\ Forall (fun r => log_level r <> ERROR) (Main.records (fst ended)).
Proof.
  destruct (C8_sse_session ["1.0"; "1.0"; "1.1"; "1.1"; "1.2"; "1.2"; "1.3"; "11.3"] ["11.4"])
    as (_ & _ & _ & _ & H).
  apply (H ltac:(discriminate) Main.CancelledError (or_introl eq_refl)).
Defined.

Lemma X1_request_parameters_witness :
  exists c,
    calls_made initial
      (snd (HunterAPI._request (replying (ok_reply (PDict []))) "GET" "account" None initial))
      = [c]
    /\ call_url c = "https://api.hunter.io/v2/account"
    /\ call_params c = [("api_key", PStr "k3y-0123")].
Proof.
  destruct (X1_request_parameters (replying (ok_reply (PDict []))) "GET" "account" None
              initial) as (c & Hc & _ & Hurl & _ & _ & Hnone).
  exists c. split; [exact Hc |]. split; [exact Hurl | exact (Hnone eq_refl)].
Defined.

Lemma X2_operation_records_witness :
  exists tail,
    records_made initial
      (snd (perform (replying (Failed (ClientError "Cannot connect to host")))
              (VerifyEmail (PStr "a@b.com")) initial))
    = debug_record (op_call (replying (Failed (ClientError "Cannot connect to host")))
                      (VerifyEmail (PStr "a@b.com"))) :: tail
    /\ tail = [mk_log "hunter-api" ERROR "Request error: Cannot connect to host"].
Proof.
  destruct (X2_operation_records (replying (Failed (ClientError "Cannot connect to host")))
              (VerifyEmail (PStr "a@b.com")) initial)
    as (tail & Hrec & _ & _ & _ & Hfail).
  exists tail. split; [exact Hrec | exact (Hfail _ eq_refl)].
Defined.

Lemma X3_unbound_response_witness :
  fst (perform (replying (Failed (ClientResponseError 302 "Found" "302, message='Found'")))
         (DomainSearch (PStr "x.com") None None) initial)
  = Raise (UnboundLocalError
      "cannot access local variable 'response' where it is not associated with a value").
Proof.
  apply (X3_unbound_response
           (replying (Failed (ClientResponseError 302 "Found" "302, message='Found'")))
           (DomainSearch (PStr "x.com") None None) initial 302 "Found"
           "302, message='Found'" eq_refl).
Defined.

Lemma X4_body_not_an_object_witness :
  fst (perform (replying (ok_reply (PList [PInt 1]))) (VerifyEmail (PStr "a@b.com")) initial)
  = Raise (AttributeError "'list' object has no attribute 'get'").
Proof.
  apply (X4_body_not_an_object (replying (ok_reply (PList [PInt 1])))
           (VerifyEmail (PStr "a@b.com")) initial (PList [PInt 1])).
  - eexists. split; [reflexivity |]. split; [simpl; lia | reflexivity].
  - reflexivity.
Defined.

Lemma X18_error_without_body_witness :
  let rep :=
    Responded (mk_response 401 "Unauthorized" "application/json"
                 "https://api.hunter.io/v2/" true (Ok PNone)) in
  fst (perform (replying rep) (VerifyEmail (PStr "a@b.com")) initial)
  = Raise (AttributeError "'NoneType' object has no attribute 'get'").
Proof.
  intros rep.
  refine (X18_error_without_body (replying rep) (VerifyEmail (PStr "a@b.com")) initial
            (mk_response 401 "Unauthorized" "application/json"
               "https://api.hunter.io/v2/" true (Ok PNone))
            eq_refl _ eq_refl eq_refl eq_refl).
  simpl. lia.
Defined.

Lemma X6_status_of_answer_witness :
  let run := Main.call_tool (replying (ok_reply (PDict [("data", PDict [])])))
               (Ok (tool_call "email_verifier" [("email", PStr "a@b.com")])) initial in
  fst run = Ok {| status_code := 200;
                  content := PDict [("content",
                                     PList [PDict [("type", PStr "text");
                                                   ("text", PStr "{}")]])] |}
  /\ length (calls_made initial (snd run)) = 1%nat.
Proof.
  intros run. split; [reflexivity |].
  destruct (X6_status_of_answer (replying (ok_reply (PDict [("data", PDict [])])))
              [("name", PStr "email_verifier");
               ("arguments", PDict [("email", PStr "a@b.com")])] initial
              {| status_code := 200;
                 content := PDict [("content",
                                    PList [PDict [("type", PStr "text");
                                                  ("text", PStr "{}")]])] |}
              eq_refl)
    as [(_ & _ & H) | [(H & _) | (H & _)]]; [exact H | discriminate H | discriminate H].
Defined.

Lemma X7_errors_are_logged_witness :
  let run := Main.call_tool (replying (ok_reply (PDict [])))
               (Ok (tool_call "email_verifier" [])) initial in
  exists message front,
    PDict [("error", PStr "'email'")] = PDict [("error", PStr message)]
    /\ logged (snd run)
       = (front ++ [mk_log "hunter-mcp" ERROR
                      ("Error executing tool email_verifier: " ++ message)])%list.
Proof.
  intros run.
  exact (proj1 (X7_errors_are_logged (replying (ok_reply (PDict [])))
                  [("name", PStr "email_verifier"); ("arguments", PDict [])] initial
                  {| status_code := 500; content := PDict [("error", PStr "'email'")] |}
                  eq_refl) eq_refl).
Defined.

Lemma X8_unknown_argument_witness :
  calls_made initial
    (snd (Main.call_tool (replying (ok_reply (PDict [])))
            (Ok (tool_call "email_finder" [("domain", PStr "x.com"); ("limit", PInt 5)]))
            initial)) = [].
Proof.
  apply (X8_unknown_argument (replying (ok_reply (PDict [])))
           [("name", PStr "email_finder");
            ("arguments", PDict [("domain", PStr "x.com"); ("limit", PInt 5)])]
           [("domain", PStr "x.com"); ("limit", PInt 5)] initial);
    reflexivity.
Defined.

Lemma X9_email_finder_arguments_witness :
  calls_made initial
    (snd (Main.call_tool (replying (ok_reply (PDict [])))
            (Ok (tool_call "email_finder"
                   [("domain", PStr "x.com"); ("full_name", PStr EmptyString)])) initial))
  = [mk_call "GET" "https://api.hunter.io/v2/email-finder"
       [("domain", PStr "x.com"); ("api_key", PStr "k3y-0123")]].
Proof.
  apply (X9_email_finder_arguments (replying (ok_reply (PDict [])))
           [("name", PStr "email_finder");
            ("arguments", PDict [("domain", PStr "x.com");
                                 ("full_name", PStr EmptyString)])]
           [("domain", PStr "x.com"); ("full_name", PStr EmptyString)]
           (PStr "x.com") initial);
    reflexivity.
Defined.

Lemma X10_domain_search_arguments_witness :
  exists c,
    calls_made initial
      (snd (Main.call_tool (replying (ok_reply (PDict [])))
              (Ok (tool_call "domain_search"
                     [("domain", PStr "x.com"); ("limit", PNone); ("type", PStr "bogus")]))
              initial)) = [c]
    /\ lookup "limit" (call_params c) = Some PNone
    /\ lookup "type" (call_params c) = Some (PStr "bogus").
Proof.
  destruct (X10_domain_search_arguments (replying (ok_reply (PDict [])))
              [("name", PStr "domain_search");
               ("arguments", PDict [("domain", PStr "x.com"); ("limit", PNone);
                                    ("type", PStr "bogus")])]
              [("domain", PStr "x.com"); ("limit", PNone); ("type", PStr "bogus")]
              (PStr "x.com") initial eq_refl eq_refl eq_refl)
    as (c & Hc & _ & _ & Hlimit & Htype).
  exists c. repeat split; assumption.
Defined.

Lemma X11_missing_key_message_witness :
  fst (Main.call_tool (replying (ok_reply (PDict [])))
         (Ok (tool_call "email_verifier" [("mail", PStr "a@b.com")])) initial)
  = Ok {| status_code := 500; content := PDict [("error", PStr "'email'")] |}.
Proof.
  apply (proj1 (X11_missing_key_message (replying (ok_reply (PDict [])))
                  [("name", PStr "email_verifier");
                   ("arguments", PDict [("mail", PStr "a@b.com")])]
                  [("mail", PStr "a@b.com")] initial eq_refl));
    reflexivity.
Defined.

Lemma X12_simple_domain_search_witness :
  calls_made initial
    (snd (SimpleMcp.call_tool (replying (ok_reply (PDict [])))
            (Ok (tool_call "domain_search"
                   [("domain", PStr "x.com"); ("limit", PInt 50);
                    ("type", PStr "personal")])) initial))
  = [mk_call "GET" "https://api.hunter.io/v2/domain-search"
       [("domain", PStr "x.com"); ("limit", PInt 10); ("api_key", PStr "k3y-0123")]].
Proof.
  apply (X12_simple_domain_search (replying (ok_reply (PDict [])))
           [("name", PStr "domain_search");
            ("arguments", PDict [("domain", PStr "x.com"); ("limit", PInt 50);
                                 ("type", PStr "personal")])]
           [("domain", PStr "x.com"); ("limit", PInt 50); ("type", PStr "personal")]
           (PStr "x.com") initial);
    reflexivity.
Defined.

(** [email_verifier] is no tool of [simple_mcp.py]. *)
Lemma X13_simple_always_answers_witness :
  fst (SimpleMcp.call_tool (replying (ok_reply (PDict [])))
         (Ok (tool_call "email_verifier" [("email", PStr "a@b.com")])) initial)
  = Ok {| status_code := 404;
          content := PDict [("error", PStr "Unknown tool: email_verifier")] |}
  /\ SimpleMcp.registered (PStr "email_verifier") = false.
Proof.
  split; [reflexivity |].
  exact (proj2 (proj2 (X13_simple_always_answers (replying (ok_reply (PDict [])))
                         (Ok (tool_call "email_verifier" [("email", PStr "a@b.com")]))
                         initial))
           [("name", PStr "email_verifier");
            ("arguments", PDict [("email", PStr "a@b.com")])]
           {| status_code := 404;
              content := PDict [("error", PStr "Unknown tool: email_verifier")] |}
           eq_refl eq_refl eq_refl).
Defined.

Lemma X14_resources_agree_witness :
  Main.read_resource "hunter://api"
  = Ok {| status_code := 404;
          content := PDict [("error", PStr "Unknown resource: hunter://api")] |}.
Proof.
  refine (proj1 (proj1 (proj2 (proj2 (X14_resources_agree "hunter://api"))) _) eq_refl).
  intros [H | []]. discriminate.
Defined.

Lemma X15_sse_error_is_raised_again_witness :
  Main.outcomes
    (fst (Main.run Main.NotStarted
            (map Main.Resume ["1.0"; "1.1"]
               ++ Main.Throw (Main.Error (ValueError "boom")) :: map Main.Resume ["1.2"])))
  = (session_outcomes ["1.0"; "1.1"]
       ++ Main.Propagated (Main.Error (ValueError "boom")) :: repeat Main.Stopped 1)%list.
Proof.
  apply (X15_sse_error_is_raised_again ["1.0"; "1.1"] ["1.2"] (ValueError "boom")).
  discriminate.
Defined.

Lemma X16_pings_are_counted_witness :
  Main.records
    (fst (Main.run Main.NotStarted
            (map Main.Resume
               ["0.0"; "0.0"; "0.1"; "0.1"; "0.2"; "0.2"; "0.3"; "10.3"; "10.3"; "20.3"])))
  = [ mk_log "hunter-mcp" INFO "Sending connected event";
      mk_log "hunter-mcp" INFO "Sending capabilities event";
      mk_log "hunter-mcp" INFO "Sending initialization_complete event";
      mk_log "hunter-mcp" DEBUG "Sending ping event 1";
      mk_log "hunter-mcp" DEBUG "Sending ping event 2" ].
Proof.
  apply (X16_pings_are_counted
           ["0.0"; "0.0"; "0.1"; "0.1"; "0.2"; "0.2"; "0.3"; "10.3"; "10.3"; "20.3"]).
  simpl. lia.
Defined.

Lemma X17_simple_session_witness :
  Main.outcomes
    (fst (SimpleMcp.run SimpleMcp.NotStarted
            (map Main.Resume ["0.0"; "0.0"; "0.1"; "0.1"; "30.1"]
               ++ Main.Throw (Main.Error (ValueError "boom")) :: map Main.Resume ["30.2"])))
  = (simple_handshake
       ++ [ Main.Awaiting 30000; Main.Yielded (ping "30.1"); Main.Stopped; Main.Stopped ])%list.
Proof.
  apply (proj2 (proj2 (proj2 (proj2
           (X17_simple_session ["0.0"; "0.0"; "0.1"; "0.1"; "30.1"] ["30.2"])))
           ltac:(discriminate) (Main.Error (ValueError "boom")))).
Defined.


End Runs.
